(** * DAC lookup-table generators: a shallow embedding and its properties

    The repository holds three Python scripts that compute lookup tables
    (LUTs) for a 12-bit DAC:

    - [src/generate.py]: the generators [generate_sine_lut],
      [generate_sawtooth_lut], [generate_triangle_lut] and the audio path
      [process_wav_file] with its sine placeholder;
    - [src/Practical_4/generate_LUT_vals.py]: the 128-sample arrays [sine],
      [saw] and [triangle];
    - [src/Practical_4/wav_LUT_vals.py]: a third script, whose text Python
      does not accept (line 18); none of its statements runs, and only the
      two built-in operations its main loop is written with are modelled.

    Modelling conventions.  A numpy floating-point array is a [list R]:
    binary64 (and binary32) arithmetic is idealised as real arithmetic, and
    [astype(int)] is truncation toward zero.  Integer arrays are [list Z],
    sample counts and lengths are [nat] (numpy refuses a negative count).
    The module-level constant [RESOLUTION] of [generate.py] is read by every
    generator; the generators below take it as their first argument [res],
    and [RESOLUTION] is the value the script binds.  Python exceptions are
    the [Raise] case of [result]; text written to standard output is a list
    of [message]s.  What [wavfile.read] finds on disk is an argument of the
    function that calls it. *)

From Stdlib Require Import Ascii String DecimalString.
From Stdlib Require Import Reals Lra Lia ZArith List Bool Psatz.
Import ListNotations.

Open Scope R_scope.

Set Warnings "-abstract-large-number".

(** ** Exceptions and results *)

Inductive exn : Type :=
| ValueError (msg : string)
| ZeroDivisionError
| IndexError
| OSError.

Inductive result (A : Type) : Type :=
| Ok (a : A)
| Raise (e : exn).

Arguments Ok {A} a.
Arguments Raise {A} e.

(** ** Standard output and the script monad

    A script step yields a value or an exception, together with the lines
    it printed; what was printed before an exception stays printed.  The
    interpolated numbers of informational lines are left out: a line is its
    format text, and the error line of an [except] clause also carries the
    source and the exception. *)

Inductive message : Type :=
| Line (text : string)
| ErrorLine (source : string) (e : exn).

Definition io (A : Type) : Type := (result A * list message)%type.

Definition ret {A : Type} (a : A) : io A := (Ok a, []).

Definition lift {A : Type} (r : result A) : io A := (r, []).

Definition print (m : message) : io unit := (Ok tt, [m]).

Definition bind {A B : Type} (c : io A) (k : A -> io B) : io B :=
  match c with
  | (Ok a, out) => let (r, out') := k a in (r, out ++ out')
  | (Raise e, out) => (Raise e, out)
  end.

(** [try: body except Exception as e: handler e]. *)
Definition try_except {A : Type} (body : io A) (handler : exn -> io A) : io A :=
  match body with
  | (Ok a, out) => (Ok a, out)
  | (Raise e, out) => let (r, out') := handler e in (r, out ++ out')
  end.

Notation "x <- c ;; k" := (bind c (fun x => k))
  (at level 61, c at next level, right associativity).
Notation "c ;;; k" := (bind c (fun _ => k))
  (at level 61, right associativity).

(** ** The Python built-ins the scripts call *)

Module Python.

(** [str(v)] for an integer. *)
Definition str (v : Z) : string := NilZero.string_of_int (Z.to_int v).

(** [sep.join(items)]. *)
Fixpoint join (sep : string) (items : list string) : string :=
  match items with
  | [] => EmptyString
  | s :: rest =>
      match rest with
      | [] => s
      | _ :: _ => (s ++ sep ++ join sep rest)%string
      end
  end.

Fixpoint spaces (n : nat) : string :=
  match n with
  | O => EmptyString
  | S k => String " "%char (spaces k)
  end.

(** The format [{val:4d}]: decimal digits, right-aligned in at least four
    columns. *)
Definition format_4d (v : Z) : string :=
  (spaces (4 - String.length (str v)) ++ str v)%string.

(** [range(0, stop, step)] for [step >= 1]. *)
Definition range_step (stop step : nat) : list nat :=
  map (fun j => (j * step)%nat) (seq 0 ((stop + (step - 1)) / step)).

(** The line break. *)
Definition newline : string := String (ascii_of_nat 10) EmptyString.

End Python.

(** ** The numpy operations the scripts call *)

Module Numpy.

(** [x.astype(int)] on a float: the fractional part is dropped. *)
Definition astype_int (x : R) : Z :=
  if Rle_dec 0 x then Int_part x else (- Int_part (- x))%Z.

(** [np.linspace(start, stop, num, endpoint)]:
    [step = (stop - start) / div] with [div = num - 1] or [num];
    [y = arange(num) * step + start]; with [endpoint] and [num > 1] the
    last element is overwritten by [stop]. *)
Definition linspace (start stop : R) (num : nat) (endpoint : bool) : list R :=
  let div := if endpoint then (num - 1)%nat else num in
  let delta := stop - start in
  let y :=
    map (fun i : nat =>
           if (0 <? div)%nat then INR i * (delta / INR div) + start
           else INR i * delta + start)
        (seq 0 num) in
  if endpoint && (1 <? num)%nat then removelast y ++ [stop] else y.

(** [np.linspace(..., dtype=int)]. *)
Definition linspace_int (start stop : R) (num : nat) : list Z :=
  map astype_int (linspace start stop num true).

(** [np.clip(a, lo, hi)] is [minimum(maximum(a, lo), hi)]. *)
Definition clip (a : list Z) (lo hi : Z) : list Z :=
  map (fun v => Z.min (Z.max v lo) hi) a.

(** [np.arange(n)] as floats. *)
Definition arange (n : nat) : list R := map INR (seq 0 n).

(** One query of [np.interp] past the first sample point: walk the
    segments; on the segment [[x0, x1)] return [y0] at [x0] itself and the
    chord elsewhere; at or beyond the last sample point return the last
    value. *)
Fixpoint interp_from (x x0 y0 : R) (xp fp : list R) : R :=
  match xp, fp with
  | x1 :: xp', y1 :: fp' =>
      if Rlt_dec x x1 then
        if Req_dec_T x x0 then y0
        else (y1 - y0) / (x1 - x0) * (x - x0) + y0
      else interp_from x x1 y1 xp' fp'
  | _, _ => y0
  end.

(** [np.interp(x, xp, fp)] for increasing [xp]; an empty [xp] raises. *)
Definition interp (x xp fp : list R) : result (list R) :=
  match xp, fp with
  | x0 :: xp', y0 :: fp' =>
      Ok (map (fun q => if Rlt_dec q x0 then y0
                        else interp_from q x0 y0 xp' fp') x)
  | _, _ => Raise (ValueError "array of sample points is empty")
  end.

End Numpy.

(** ** [src/generate.py] *)

Module Generate.
Import Numpy.

Definition TOTAL_SAMPLES : nat := 20000.
Definition NUM_WAVEFORMS : nat := 6.
Definition SAMPLES_PER_WAVEFORM : nat := TOTAL_SAMPLES / NUM_WAVEFORMS.
Definition RESOLUTION : Z := 4095.

Definition generate_sine_lut (res : Z) (n_samples : nat) : list Z :=
  let t := linspace 0 (2 * PI) n_samples false in
  let sine := map sin t in
  map (fun s => astype_int ((s + 1) / 2 * IZR res)) sine.

Definition generate_sawtooth_lut (res : Z) (n_samples : nat) : list Z :=
  map astype_int (linspace 0 (IZR res) n_samples false).

Definition generate_triangle_lut (res : Z) (n_samples : nat) : list Z :=
  let half := (n_samples / 2)%nat in
  let rising := linspace 0 (IZR res) half false in
  let falling := linspace (IZR res) 0 (n_samples - half) false in
  map astype_int (rising ++ falling).

(** What [wavfile.read] hands back: the rate and an array whose [dtype] the
    script inspects; a two-dimensional array has one row per frame, each row
    holding channel 0 and the other channels.  The [dtype] is [uint8] (8-bit
    PCM), [int16], [int32] (24- and 32-bit PCM), [float32] or [float64]; the
    samples of an integer array are integer-valued and within the range of
    its type.  (64-bit PCM, which scipy reads as [int64], is left out: the
    cast of its scaled values back to integers is outside the range of the
    target type.) *)
Inductive dtype : Type := int16 | uint8 | int32 | float32 | float64.

Inductive samples : Type :=
| Mono (d : list R)
| Multi (rows : list (R * list R)).

Record wav_data : Type := {
  sample_rate : Z;
  data_dtype : dtype;
  data : samples
}.

(** [normalized[indices]]: a negative index counts from the end, an index
    out of range raises. *)
Fixpoint take (a : list Z) (indices : list Z) : result (list Z) :=
  match indices with
  | [] => Ok []
  | i :: rest =>
      let len := Z.of_nat (length a) in
      if ((0 <=? i) && (i <? len))%Z then
        match take a rest with
        | Ok r => Ok (nth (Z.to_nat i) a 0%Z :: r)
        | Raise e => Raise e
        end
      else if ((- len <=? i) && (i <? 0))%Z then
        match take a rest with
        | Ok r => Ok (nth (Z.to_nat (len + i)) a 0%Z :: r)
        | Raise e => Raise e
        end
      else Raise IndexError
  end.

(** Lines 69-77: the resampling step of [process_wav_file]. *)
Definition resample (normalized : list Z) (n_samples : nat) : result (list Z) :=
  let last := IZR (Z.of_nat (length normalized) - 1) in
  if (n_samples <? length normalized)%nat then
    let indices := linspace_int 0 last n_samples in
    take normalized indices
  else
    let x_old := arange (length normalized) in
    let x_new := linspace 0 last n_samples true in
    match interp x_new x_old (map IZR normalized) with
    | Ok r => Ok (map astype_int r)
    | Raise e => Raise e
    end.

(** [data + 1] on an [int32] array: numpy adds in the type of the array,
    so the largest sample wraps around to the smallest value. *)
Definition add_one_int32 (x : R) : R :=
  if Rle_dec 2147483648 (x + 1) then x + 1 - 4294967296 else x + 1.

(** Lines 57-66: the fixed-range normalisation by [dtype].  The first two
    branches convert to [float] before adding; the [else] branch adds 1 in
    the type of the array and only the division makes floats. *)
Definition normalize (res : Z) (dt : dtype) (d : list R) : list Z :=
  match dt with
  | int16 => map (fun x => astype_int ((x + 32768) / 65535 * IZR res)) d
  | uint8 => map (fun x => astype_int (x / 255 * IZR res)) d
  | int32 => map (fun x => astype_int (add_one_int32 x / 2 * IZR res)) d
  | float32 | float64 => map (fun x => astype_int ((x + 1) / 2 * IZR res)) d
  end.

(** [resampled.min()] inside the last [print]: an empty array raises. *)
Definition array_min (a : list Z) : result Z :=
  match a with
  | [] => Raise (ValueError "zero-size array to reduction operation minimum")
  | v :: a' => Ok (fold_left Z.min a' v)
  end.

(** [process_wav_file(filepath, n_samples)]; [read] is the outcome of
    [wavfile.read(filepath)]. *)
Definition process_wav_file (res : Z) (read : result wav_data)
    (filepath : string) (n_samples : nat) : io (list Z * Z) :=
  try_except
    (w <- lift read ;;
     print (Line "Processing") ;;;
     print (Line "Sample rate") ;;;
     print (Line "Original samples") ;;;
     print (Line "Data type") ;;;
     d <- match data w with
          | Mono d => ret d
          | Multi rows => print (Line "Converted stereo to mono") ;;; ret (map fst rows)
          end ;;
     let normalized := normalize res (data_dtype w) d in
     resampled <- lift (resample normalized n_samples) ;;
     let resampled := clip resampled 0 res in
     print (Line "Resampled to") ;;;
     lift (array_min resampled) ;;;
     print (Line "Value range") ;;;
     ret (resampled, sample_rate w))
    (fun e =>
       print (ErrorLine filepath e) ;;;
       print (Line "Using placeholder sine wave instead") ;;;
       ret (generate_sine_lut res n_samples, 44100%Z)).

(** Lines 120-123: the loop over [wav_files]; [fs] is what [wavfile.read]
    returns for each path. *)
Fixpoint audio_luts_loop (res : Z) (fs : string -> result wav_data)
    (wav_files : list (string * string)) (n_samples : nat)
    (acc : list (list Z * string * Z)) : io (list (list Z * string * Z)) :=
  match wav_files with
  | [] => ret acc
  | (filepath, name) :: rest =>
      r <- process_wav_file res (fs filepath) filepath n_samples ;;
      audio_luts_loop res fs rest n_samples (acc ++ [(fst r, name, snd r)])
  end.

Definition audio_luts (res : Z) (fs : string -> result wav_data)
    (wav_files : list (string * string)) (n_samples : nat)
    : io (list (list Z * string * Z)) :=
  audio_luts_loop res fs wav_files n_samples [].

(** Lines 170-182: [format_c_array(arr, name, samples_per_line=12)]; the
    list [lines] and the text joined from it. *)
Definition format_c_array_lines (arr : list Z) (name : string)
    (samples_per_line : nat) : list string :=
  let header :=
    ("const uint16_t " ++ name ++ "[" ++ Python.str (Z.of_nat (length arr))
     ++ "] = {")%string in
  let body :=
    map (fun i : nat =>
           let chunk := firstn samples_per_line (skipn i arr) in
           let line :=
             ("    " ++ Python.join ", " (map Python.format_4d chunk))%string in
           if (i + samples_per_line <? length arr)%nat
           then (line ++ ",")%string else line)
        (Python.range_step (length arr) samples_per_line) in
  [header] ++ body ++ ["};"%string].

Definition format_c_array (arr : list Z) (name : string)
    (samples_per_line : nat) : string :=
  Python.join Python.newline (format_c_array_lines arr name samples_per_line).

(** Lines 226-252: the timer constants the script writes out and the
    quotients it computes from them, as functions of the number of samples
    [NS] and of the signal frequency. *)
Definition TIM2CLK : Z := 16000000.

Definition TIM2_TICKS (NS F_SIGNAL : Z) : Z := (TIM2CLK / (NS * F_SIGNAL))%Z.

Definition F_max (NS : Z) : Z := (TIM2CLK / (2 * NS))%Z.

End Generate.

(** ** [src/Practical_4/generate_LUT_vals.py] *)

Module BasicLUT.
Import Numpy.

Definition N : nat := 128.
Definition max_val : Z := 4095.

Definition x : list R := linspace 0 (2 * PI) N false.

Definition sine : list Z :=
  map (fun s => astype_int ((s + 1) / 2 * IZR max_val)) (map sin x).

Definition saw : list Z :=
  map astype_int (linspace 0 (IZR max_val) N false).

Definition triangle : list Z :=
  map astype_int
      (linspace 0 (IZR max_val) (N / 2) false
       ++ linspace (IZR max_val) 0 (N / 2) false).

End BasicLUT.

(** ** [src/Practical_4/wav_LUT_vals.py]

    Python rejects the text of this script: line 18 reads
    [sample_rate = wav_file.getframerate() // 44.1kHz].  No function of the
    file is ever defined and no statement of it runs, so the file has no
    behaviour to embed.  What follows are the two built-in operations its
    main loop is written with (line 105), as the language defines them. *)

Module WavLUT.

(** [wav_file.replace('.wav', '')]. *)
Fixpoint remove_wav (skip : nat) (s : string) : string :=
  match s with
  | EmptyString => EmptyString
  | String c s' =>
      match skip with
      | S k => remove_wav k s'
      | O => if prefix ".wav" s then remove_wav 3 s' else String c (remove_wav 0 s')
      end
  end.

(** [luts[key] = lut] on an insertion-ordered dict. *)
Fixpoint dict_set (luts : list (string * list Z)) (key : string) (lut : list Z)
    : list (string * list Z) :=
  match luts with
  | [] => [(key, lut)]
  | (k, v) :: rest =>
      if String.eqb k key then (k, lut) :: rest
      else (k, v) :: dict_set rest key lut
  end.

Fixpoint dict_get (luts : list (string * list Z)) (key : string) : option (list Z) :=
  match luts with
  | [] => None
  | (k, v) :: rest => if String.eqb k key then Some v else dict_get rest key
  end.

End WavLUT.

(** ** Vocabulary of the statements *)

(** A DAC value at resolution [res]. *)
Definition in_range (res : Z) (v : Z) : Prop := (0 <= v <= res)%Z.

(** * Properties *)

(** ** Truncation *)

Section Truncation.
Import Numpy.

Lemma Int_part_le (x y : R) : x <= y -> (Int_part x <= Int_part y)%Z.
Proof.
  intros Hxy.
  destruct (base_Int_part x) as [Hx1 Hx2].
  destruct (base_Int_part y) as [Hy1 Hy2].
  apply Z.lt_succ_r. apply lt_IZR. rewrite succ_IZR. lra.
Qed.

Lemma Int_part_nonneg (x : R) : 0 <= x -> (0 <= Int_part x)%Z.
Proof.
  intros Hx. destruct (base_Int_part x) as [H1 H2].
  apply Z.lt_succ_r. apply lt_IZR. rewrite succ_IZR. lra.
Qed.

Lemma Int_part_between (x : R) (z : Z) :
  IZR z <= x < IZR z + 1 -> Int_part x = z.
Proof.
  intros [H1 H2]. symmetry. apply Int_part_spec. lra.
Qed.

Lemma astype_int_nonneg (x : R) : 0 <= x -> astype_int x = Int_part x.
Proof.
  intros Hx. unfold astype_int. destruct (Rle_dec 0 x); [reflexivity | contradiction].
Qed.

Lemma astype_int_between (x : R) (z : Z) :
  0 <= x -> IZR z <= x < IZR z + 1 -> astype_int x = z.
Proof.
  intros Hx Hz. rewrite astype_int_nonneg by exact Hx.
  now apply Int_part_between.
Qed.

Lemma astype_int_IZR (z : Z) : astype_int (IZR z) = z.
Proof.
  unfold astype_int. destruct (Rle_dec 0 (IZR z)) as [H | H].
  - apply Int_part_between. lra.
  - rewrite <- opp_IZR.
    rewrite (Int_part_between (IZR (- z)) (- z)) by lra. lia.
Qed.

Lemma astype_int_mono (x y : R) : x <= y -> (astype_int x <= astype_int y)%Z.
Proof.
  intros Hxy. unfold astype_int.
  destruct (Rle_dec 0 x) as [Hx | Hx]; destruct (Rle_dec 0 y) as [Hy | Hy].
  - now apply Int_part_le.
  - lra.
  - assert (0 <= Int_part (- x))%Z by (apply Int_part_nonneg; lra).
    assert (0 <= Int_part y)%Z by (apply Int_part_nonneg; lra).
    lia.
  - assert (Int_part (- y) <= Int_part (- x))%Z by (apply Int_part_le; lra).
    lia.
Qed.

Lemma astype_int_range (x : R) (hi : Z) :
  0 <= x <= IZR hi -> (0 <= astype_int x <= hi)%Z.
Proof.
  intros [H0 H1]. split.
  - rewrite astype_int_nonneg by exact H0. now apply Int_part_nonneg.
  - rewrite <- (astype_int_IZR hi). now apply astype_int_mono.
Qed.

(** A gap of at least one between two non-negative floats survives the
    truncation. *)
Lemma astype_int_gap (x y : R) :
  0 <= x -> x + 1 <= y -> (astype_int x < astype_int y)%Z.
Proof.
  intros Hx Hxy.
  rewrite !astype_int_nonneg by lra.
  destruct (base_Int_part x) as [Hx1 Hx2].
  destruct (base_Int_part y) as [Hy1 Hy2].
  apply lt_IZR. lra.
Qed.

End Truncation.

(** ** [linspace] *)

Section Linspace.
Import Numpy.

Lemma length_linspace (a b : R) (n : nat) (e : bool) :
  length (linspace a b n e) = n.
Proof.
  unfold linspace.
  destruct (e && (1 <? n)%nat) eqn:He.
  - apply andb_true_iff in He as [_ Hn]. apply Nat.ltb_lt in Hn.
    rewrite length_app. simpl.
    rewrite removelast_firstn_len, length_firstn, length_map, length_seq.
    lia.
  - now rewrite length_map, length_seq.
Qed.

Lemma nth_linspace_open (a b d : R) (n i : nat) :
  (i < n)%nat ->
  nth i (linspace a b n false) d = INR i * ((b - a) / INR n) + a.
Proof.
  intros Hi. unfold linspace. simpl.
  assert (Hn : (0 <? n)%nat = true) by (apply Nat.ltb_lt; lia).
  rewrite Hn.
  rewrite (nth_indep _ d (INR 0 * ((b - a) / INR n) + a))
    by (rewrite length_map, length_seq; exact Hi).
  rewrite (map_nth (fun i0 : nat => INR i0 * ((b - a) / INR n) + a)).
  now rewrite seq_nth by exact Hi.
Qed.

Lemma In_linspace_open (a b v : R) (n : nat) :
  In v (linspace a b n false) ->
  exists i, (i < n)%nat /\ v = INR i * ((b - a) / INR n) + a.
Proof.
  unfold linspace. simpl. intros Hin.
  apply in_map_iff in Hin as [i [Hv Hi]].
  apply in_seq in Hi.
  exists i. split; [lia |].
  assert (Hn : (0 <? n)%nat = true) by (apply Nat.ltb_lt; lia).
  rewrite Hn in Hv. now symmetry.
Qed.

(** The [i]-th of [n] points is the fraction [i / n] of the way. *)
Lemma fraction_bounds (i n : nat) :
  (i < n)%nat -> 0 <= INR i / INR n < 1.
Proof.
  intros Hi.
  assert (H0 : 0 <= INR i) by apply pos_INR.
  assert (Hlt : INR i < INR n) by now apply lt_INR.
  assert (Hn : 0 < INR n) by lra.
  split.
  - apply Rmult_le_pos; [exact H0 | left; now apply Rinv_0_lt_compat].
  - apply (Rmult_lt_reg_r (INR n)); [exact Hn |].
    unfold Rdiv. rewrite Rmult_assoc, Rinv_l by lra. lra.
Qed.

Lemma linspace_up_range (r v : R) (n : nat) :
  0 <= r -> In v (linspace 0 r n false) -> 0 <= v <= r.
Proof.
  intros Hr Hin. apply In_linspace_open in Hin as [i [Hi Hv]].
  pose proof (fraction_bounds i n Hi) as Hf.
  assert (Hv' : v = INR i / INR n * r).
  { rewrite Hv. assert (INR n <> 0) by (apply not_0_INR; lia). field. assumption. }
  rewrite Hv'. split; nra.
Qed.

Lemma linspace_down_range (r v : R) (n : nat) :
  0 <= r -> In v (linspace r 0 n false) -> 0 <= v <= r.
Proof.
  intros Hr Hin. apply In_linspace_open in Hin as [i [Hi Hv]].
  pose proof (fraction_bounds i n Hi) as Hf.
  assert (Hv' : v = r - INR i / INR n * r).
  { rewrite Hv. assert (INR n <> 0) by (apply not_0_INR; lia). field. assumption. }
  rewrite Hv'. split; nra.
Qed.

End Linspace.

(** ** The three generators of [generate.py] *)

Section Generators.
Import Numpy Generate.

Lemma nth_map_lt {A B : Type} (f : A -> B) (l : list A) (i : nat) (d : B) (d' : A) :
  (i < length l)%nat -> nth i (map f l) d = f (nth i l d').
Proof.
  intros Hi.
  rewrite (nth_indep _ d (f d')) by (now rewrite length_map).
  apply map_nth.
Qed.

Lemma half_le (n : nat) : (n / 2 <= n)%nat.
Proof. apply Nat.Div0.div_le_upper_bound. lia. Qed.

Lemma length_generate_sine_lut (res : Z) (n : nat) :
  length (generate_sine_lut res n) = n.
Proof.
  unfold generate_sine_lut. now rewrite !length_map, length_linspace.
Qed.

Lemma length_generate_sawtooth_lut (res : Z) (n : nat) :
  length (generate_sawtooth_lut res n) = n.
Proof.
  unfold generate_sawtooth_lut. now rewrite length_map, length_linspace.
Qed.

Lemma length_generate_triangle_lut (res : Z) (n : nat) :
  length (generate_triangle_lut res n) = n.
Proof.
  unfold generate_triangle_lut.
  rewrite length_map, length_app, !length_linspace.
  pose proof (half_le n). lia.
Qed.

Lemma range_generate_sine_lut (res : Z) (n : nat) :
  (0 <= res)%Z -> Forall (in_range res) (generate_sine_lut res n).
Proof.
  intros Hres. unfold generate_sine_lut.
  apply Forall_forall. intros v Hv.
  apply in_map_iff in Hv as [s [Hv Hs]].
  apply in_map_iff in Hs as [t [Hs _]].
  subst v s. apply astype_int_range.
  pose proof (SIN_bound t) as [Hlo Hhi].
  apply IZR_le in Hres.
  split; nra.
Qed.

Lemma range_generate_sawtooth_lut (res : Z) (n : nat) :
  (0 <= res)%Z -> Forall (in_range res) (generate_sawtooth_lut res n).
Proof.
  intros Hres. unfold generate_sawtooth_lut.
  apply Forall_forall. intros v Hv.
  apply in_map_iff in Hv as [y [Hv Hy]].
  subst v. apply astype_int_range.
  apply linspace_up_range in Hy; [exact Hy | now apply IZR_le].
Qed.

Lemma range_generate_triangle_lut (res : Z) (n : nat) :
  (0 <= res)%Z -> Forall (in_range res) (generate_triangle_lut res n).
Proof.
  intros Hres. unfold generate_triangle_lut.
  apply Forall_forall. intros v Hv.
  apply in_map_iff in Hv as [y [Hv Hy]].
  subst v. apply astype_int_range.
  apply IZR_le in Hres.
  apply in_app_iff in Hy as [Hy | Hy].
  - now apply linspace_up_range in Hy.
  - now apply linspace_down_range in Hy.
Qed.

Lemma nth_generate_sawtooth_lut (res : Z) (n i : nat) :
  (i < n)%nat ->
  nth i (generate_sawtooth_lut res n) 0%Z = astype_int (INR i * (IZR res / INR n)).
Proof.
  intros Hi. unfold generate_sawtooth_lut.
  rewrite (nth_map_lt _ _ _ _ 0) by (now rewrite length_linspace).
  rewrite nth_linspace_open by exact Hi.
  f_equal. unfold Rdiv. ring.
Qed.

Lemma nth_triangle_rising (res : Z) (n i : nat) :
  (i < n / 2)%nat ->
  nth i (generate_triangle_lut res n) 0%Z
  = astype_int (INR i * (IZR res / INR (n / 2))).
Proof.
  intros Hi. unfold generate_triangle_lut.
  rewrite (nth_map_lt _ _ _ _ 0)
    by (rewrite length_app, !length_linspace; lia).
  rewrite app_nth1 by (now rewrite length_linspace).
  rewrite nth_linspace_open by exact Hi.
  f_equal. unfold Rdiv. ring.
Qed.

Lemma nth_triangle_falling (res : Z) (n k : nat) :
  (k < n - n / 2)%nat ->
  nth (n / 2 + k) (generate_triangle_lut res n) 0%Z
  = astype_int (IZR res - INR k * (IZR res / INR (n - n / 2))).
Proof.
  intros Hk. unfold generate_triangle_lut.
  rewrite (nth_map_lt _ _ _ _ 0)
    by (rewrite length_app, !length_linspace; lia).
  rewrite app_nth2 by (rewrite length_linspace; lia).
  rewrite length_linspace.
  replace (n / 2 + k - n / 2)%nat with k by lia.
  rewrite nth_linspace_open by exact Hk.
  f_equal. unfold Rdiv. ring.
Qed.

(** The scripts of [Practical_4] compute the same three arrays as the
    generators at 128 samples. *)
Lemma BasicLUT_sine_eq :
  BasicLUT.sine = generate_sine_lut BasicLUT.max_val BasicLUT.N.
Proof. reflexivity. Qed.

Lemma BasicLUT_saw_eq :
  BasicLUT.saw = generate_sawtooth_lut BasicLUT.max_val BasicLUT.N.
Proof. reflexivity. Qed.

Lemma BasicLUT_triangle_eq :
  BasicLUT.triangle = generate_triangle_lut BasicLUT.max_val BasicLUT.N.
Proof. reflexivity. Qed.

End Generators.

(** ** Length and range of the generated tables *)

Section LengthAndRange.
Import Numpy Generate.

(** C2.  For a resolution [R = 2^bits - 1] and every sample count
    [N > 0], each of the sine, sawtooth and triangle generators returns
    exactly [N] values, all within [[0, R]]; the three fixed arrays of
    [generate_LUT_vals.py] have [N = 128] values within [[0, max_val]]. *)
Theorem generated_luts_length_and_range (bits n : nat) :
  (0 < n)%nat ->
  let R := (2 ^ Z.of_nat bits - 1)%Z in
  (length (generate_sine_lut R n) = n
   /\ Forall (in_range R) (generate_sine_lut R n))
  /\ (length (generate_sawtooth_lut R n) = n
      /\ Forall (in_range R) (generate_sawtooth_lut R n))
  /\ (length (generate_triangle_lut R n) = n
      /\ Forall (in_range R) (generate_triangle_lut R n))
  /\ (length BasicLUT.sine = BasicLUT.N
      /\ Forall (in_range BasicLUT.max_val) BasicLUT.sine)
  /\ (length BasicLUT.saw = BasicLUT.N
      /\ Forall (in_range BasicLUT.max_val) BasicLUT.saw)
  /\ (length BasicLUT.triangle = BasicLUT.N
      /\ Forall (in_range BasicLUT.max_val) BasicLUT.triangle).
Proof.
  intros _ R.
  assert (HR : (0 <= R)%Z).
  { unfold R. pose proof (Z.pow_pos_nonneg 2 (Z.of_nat bits)). lia. }
  assert (Hmax : (0 <= BasicLUT.max_val)%Z) by (unfold BasicLUT.max_val; lia).
  rewrite BasicLUT_sine_eq, BasicLUT_saw_eq, BasicLUT_triangle_eq.
  repeat split;
    auto using length_generate_sine_lut, length_generate_sawtooth_lut,
      length_generate_triangle_lut, range_generate_sine_lut,
      range_generate_sawtooth_lut, range_generate_triangle_lut.
Qed.

Lemma generated_luts_length_and_range_witness :
  length (generate_triangle_lut (2 ^ Z.of_nat 12 - 1) 7) = 7%nat
  /\ Forall (in_range (2 ^ Z.of_nat 12 - 1)) (generate_triangle_lut (2 ^ Z.of_nat 12 - 1) 7).
Proof.
  apply (generated_luts_length_and_range 12 7). lia.
Defined.

End LengthAndRange.

(** ** The sawtooth *)

Section Sawtooth.
Import Numpy Generate.

Lemma sawtooth_step_le (res : Z) (n i : nat) :
  (0 <= res)%Z -> (S i < n)%nat ->
  INR i * (IZR res / INR n) <= INR (S i) * (IZR res / INR n).
Proof.
  intros Hres Hi. rewrite S_INR.
  assert (Hn : 0 < INR n) by (apply lt_0_INR; lia).
  assert (0 <= IZR res / INR n).
  { apply Rmult_le_pos; [now apply IZR_le | left; now apply Rinv_0_lt_compat]. }
  nra.
Qed.

(** C5, counterexample.  With 4096 samples at the script's resolution the
    stride is 4095/4096 < 1, so the table starts 0, 0: the sawtooth is not
    strictly increasing for every [N > 0]. *)
Lemma sawtooth_not_strict_4096 :
  ~ (forall i : nat, (S i < 4096)%nat ->
       (nth i (generate_sawtooth_lut RESOLUTION 4096) 0
        < nth (S i) (generate_sawtooth_lut RESOLUTION 4096) 0)%Z).
Proof.
  intros H. specialize (H 0%nat ltac:(lia)).
  rewrite !nth_generate_sawtooth_lut in H by lia.
  assert (Hn : INR 4096 = 4096) by (rewrite INR_IZR_INZ; f_equal).
  rewrite Hn in H. unfold RESOLUTION in H.
  rewrite (astype_int_between _ 0) in H by (simpl; lra).
  rewrite (astype_int_between _ 0) in H by (simpl; lra).
  lia.
Qed.

(** C5, amended.  For every [N > 0] the sawtooth table starts at 0 and
    never decreases; it is strictly increasing whenever [N <= R]. *)
Theorem sawtooth_monotone (res : Z) (n : nat) :
  (0 <= res)%Z -> (0 < n)%nat ->
  let lut := generate_sawtooth_lut res n in
  nth 0 lut 0%Z = 0%Z
  /\ (forall i : nat, (S i < n)%nat -> (nth i lut 0 <= nth (S i) lut 0)%Z)
  /\ ((Z.of_nat n <= res)%Z ->
      forall i : nat, (S i < n)%nat -> (nth i lut 0 < nth (S i) lut 0)%Z).
Proof.
  intros Hres Hn lut. unfold lut. split; [| split].
  - rewrite nth_generate_sawtooth_lut by exact Hn.
    apply astype_int_between; simpl; lra.
  - intros i Hi. rewrite !nth_generate_sawtooth_lut by lia.
    apply astype_int_mono. now apply sawtooth_step_le.
  - intros Hle i Hi. rewrite !nth_generate_sawtooth_lut by lia.
    assert (Hpos : 0 < INR n) by (apply lt_0_INR; lia).
    assert (Hstride : 1 <= IZR res / INR n).
    { apply (Rmult_le_reg_r (INR n)); [exact Hpos |].
      unfold Rdiv. rewrite Rmult_assoc, Rinv_l by lra.
      rewrite INR_IZR_INZ. apply IZR_le in Hle. lra. }
    apply astype_int_gap.
    + apply Rmult_le_pos; [apply pos_INR | lra].
    + rewrite S_INR. lra.
Qed.

Lemma sawtooth_monotone_witness :
  nth 0 (generate_sawtooth_lut 4095 3333) 0%Z = 0%Z
  /\ (forall i : nat, (S i < 3333)%nat ->
        (nth i (generate_sawtooth_lut 4095 3333) 0
         <= nth (S i) (generate_sawtooth_lut 4095 3333) 0)%Z)
  /\ ((Z.of_nat 3333 <= 4095)%Z ->
      forall i : nat, (S i < 3333)%nat ->
        (nth i (generate_sawtooth_lut 4095 3333) 0
         < nth (S i) (generate_sawtooth_lut 4095 3333) 0)%Z).
Proof.
  apply (sawtooth_monotone 4095 3333); lia.
Defined.

End Sawtooth.

(** ** Four samples at resolution 15 *)

Section EndToEnd.
Import Numpy Generate.

Lemma cons_eq {A : Type} (a b : A) (l l' : list A) :
  a = b -> l = l' -> a :: l = b :: l'.
Proof. intros -> ->. reflexivity. Qed.

(** C9.  With four samples and resolution 15 the sawtooth ramp is
    0, 3.75, 7.5, 11.25 and its table is [[0, 3, 7, 11]]; the sine table,
    sampled at 0, pi/2, pi, 3pi/2, is [[7, 15, 7, 0]]: the fractional
    parts are dropped, not rounded. *)
Theorem four_samples_resolution_15 :
  linspace 0 15 4 false = [0; 15 / 4; 15 / 2; 45 / 4]
  /\ generate_sawtooth_lut 15 4 = [0; 3; 7; 11]%Z
  /\ map sin (linspace 0 (2 * PI) 4 false) = [0; 1; 0; -1]
  /\ generate_sine_lut 15 4 = [7; 15; 7; 0]%Z.
Proof.
  assert (Hramp : linspace 0 15 4 false = [0; 15 / 4; 15 / 2; 45 / 4]).
  { unfold linspace. simpl.
    repeat (apply cons_eq; [lra |]). reflexivity. }
  assert (Hsin : map sin (linspace 0 (2 * PI) 4 false) = [0; 1; 0; -1]).
  { unfold linspace. simpl.
    apply cons_eq.
    { replace (0 * ((2 * PI - 0) / (1 + 1 + 1 + 1)) + 0) with 0 by lra.
      apply sin_0. }
    apply cons_eq.
    { replace (1 * ((2 * PI - 0) / (1 + 1 + 1 + 1)) + 0) with (PI / 2) by lra.
      apply sin_PI2. }
    apply cons_eq.
    { replace ((1 + 1) * ((2 * PI - 0) / (1 + 1 + 1 + 1)) + 0) with PI by lra.
      apply sin_PI. }
    apply cons_eq; [| reflexivity].
    replace ((1 + 1 + 1) * ((2 * PI - 0) / (1 + 1 + 1 + 1)) + 0)
      with (3 * (PI / 2)) by lra.
    apply sin_3PI2. }
  split; [exact Hramp |]. split; [| split; [exact Hsin |]].
  - unfold generate_sawtooth_lut. rewrite Hramp. simpl.
    repeat (apply cons_eq; [apply astype_int_between; lra |]). reflexivity.
  - unfold generate_sine_lut. cbv zeta. rewrite Hsin. simpl.
    repeat (apply cons_eq; [apply astype_int_between; lra |]). reflexivity.
Qed.

End EndToEnd.

(** ** The triangle *)

Section Triangle.
Import Numpy Generate.

Lemma triangle_rising_le_res (res : Z) (n i : nat) :
  (0 <= res)%Z -> (i < n)%nat ->
  (nth i (generate_triangle_lut res n) 0 <= res)%Z.
Proof.
  intros Hres Hi.
  pose proof (range_generate_triangle_lut res n Hres) as Hall.
  rewrite Forall_forall in Hall.
  apply (Hall (nth i (generate_triangle_lut res n) 0%Z)).
  apply nth_In. now rewrite length_generate_triangle_lut.
Qed.

Lemma triangle_peak (res : Z) (n : nat) :
  (0 <= res)%Z -> (0 < n)%nat ->
  nth (n / 2) (generate_triangle_lut res n) 0%Z = res.
Proof.
  intros Hres Hn.
  assert (Hm : (0 < n - n / 2)%nat).
  { pose proof (Nat.Div0.div_lt_upper_bound n 2 n). lia. }
  replace (n / 2)%nat with (n / 2 + 0)%nat at 1 by lia.
  rewrite nth_triangle_falling by exact Hm.
  change (INR 0) with 0.
  replace (IZR res - 0 * (IZR res / INR (n - n / 2))) with (IZR res) by ring.
  apply astype_int_IZR.
Qed.

Lemma triangle_rising_mono (res : Z) (n i j : nat) :
  (0 <= res)%Z -> (i <= j)%nat -> (j < n / 2)%nat ->
  (nth i (generate_triangle_lut res n) 0 <= nth j (generate_triangle_lut res n) 0)%Z.
Proof.
  intros Hres Hij Hj.
  rewrite !nth_triangle_rising by lia.
  apply astype_int_mono.
  assert (Hh : 0 < INR (n / 2)) by (apply lt_0_INR; lia).
  assert (0 <= IZR res / INR (n / 2)).
  { apply Rmult_le_pos; [now apply IZR_le | left; now apply Rinv_0_lt_compat]. }
  apply le_INR in Hij. nra.
Qed.

Lemma triangle_falling_mono (res : Z) (n i j : nat) :
  (0 <= res)%Z -> (i <= j)%nat -> (j < n - n / 2)%nat ->
  (nth (n / 2 + j) (generate_triangle_lut res n) 0
   <= nth (n / 2 + i) (generate_triangle_lut res n) 0)%Z.
Proof.
  intros Hres Hij Hj.
  rewrite !nth_triangle_falling by lia.
  apply astype_int_mono.
  assert (Hh : 0 < INR (n - n / 2)) by (apply lt_0_INR; lia).
  assert (0 <= IZR res / INR (n - n / 2)).
  { apply Rmult_le_pos; [now apply IZR_le | left; now apply Rinv_0_lt_compat]. }
  apply le_INR in Hij. nra.
Qed.

(** A truncated quotient, in integers. *)
Lemma astype_int_quotient (x : R) (a : Z) (h : nat) :
  (0 < h)%nat -> 0 <= x -> x * INR h = IZR a ->
  (Z.of_nat h * astype_int x <= a < Z.of_nat h * astype_int x + Z.of_nat h)%Z.
Proof.
  intros Hh Hx Ha.
  rewrite astype_int_nonneg by exact Hx.
  destruct (base_Int_part x) as [H1 H2].
  assert (Hpos : 0 < INR h) by (apply lt_0_INR; lia).
  rewrite INR_IZR_INZ in *.
  split.
  - apply le_IZR. rewrite mult_IZR, <- Ha. nra.
  - apply lt_IZR. rewrite plus_IZR, mult_IZR, <- Ha. nra.
Qed.

Lemma triangle_rising_value (res : Z) (n i : nat) :
  (0 <= res)%Z -> (i < n / 2)%nat ->
  (Z.of_nat (n / 2) * nth i (generate_triangle_lut res n) 0
   <= Z.of_nat i * res
   < Z.of_nat (n / 2) * nth i (generate_triangle_lut res n) 0 + Z.of_nat (n / 2))%Z.
Proof.
  intros Hres Hi. rewrite nth_triangle_rising by exact Hi.
  assert (Hh : INR (n / 2) <> 0) by (apply not_0_INR; lia).
  assert (Hpos : 0 < INR (n / 2)) by (apply lt_0_INR; lia).
  apply astype_int_quotient; [lia | |].
  - apply Rmult_le_pos; [apply pos_INR |].
    apply Rmult_le_pos; [now apply IZR_le | left; now apply Rinv_0_lt_compat].
  - rewrite mult_IZR, <- INR_IZR_INZ. field. exact Hh.
Qed.

Lemma triangle_falling_value (res : Z) (n k : nat) :
  (0 <= res)%Z -> (k < n - n / 2)%nat ->
  (Z.of_nat (n - n / 2) * nth (n / 2 + k) (generate_triangle_lut res n) 0
   <= (Z.of_nat (n - n / 2) - Z.of_nat k) * res
   < Z.of_nat (n - n / 2) * nth (n / 2 + k) (generate_triangle_lut res n) 0
     + Z.of_nat (n - n / 2))%Z.
Proof.
  intros Hres Hk. rewrite nth_triangle_falling by exact Hk.
  set (m := (n - n / 2)%nat) in *.
  assert (Hm : INR m <> 0) by (apply not_0_INR; lia).
  assert (Hpos : 0 < INR m) by (apply lt_0_INR; lia).
  assert (HR : 0 <= IZR res) by now apply IZR_le.
  assert (Hf : 0 <= INR k / INR m < 1) by (apply fraction_bounds; exact Hk).
  apply astype_int_quotient; [lia | |].
  - replace (IZR res - INR k * (IZR res / INR m))
      with (IZR res * (1 - INR k / INR m)) by (field; exact Hm).
    apply Rmult_le_pos; lra.
  - rewrite mult_IZR, minus_IZR, <- !INR_IZR_INZ. field. exact Hm.
Qed.

Lemma triangle_rising_strict (res : Z) (n i : nat) :
  (0 <= res)%Z -> (Z.of_nat (n / 2) <= res)%Z -> (S i < n / 2)%nat ->
  (nth i (generate_triangle_lut res n) 0
   < nth (S i) (generate_triangle_lut res n) 0)%Z.
Proof.
  intros Hres Hle Hi. rewrite !nth_triangle_rising by lia.
  assert (Hpos : 0 < INR (n / 2)) by (apply lt_0_INR; lia).
  assert (Hstride : 1 <= IZR res / INR (n / 2)).
  { apply (Rmult_le_reg_r (INR (n / 2))); [exact Hpos |].
    unfold Rdiv. rewrite Rmult_assoc, Rinv_l by lra.
    rewrite INR_IZR_INZ. apply IZR_le in Hle. lra. }
  apply astype_int_gap.
  - apply Rmult_le_pos; [apply pos_INR | lra].
  - rewrite S_INR. lra.
Qed.

Lemma triangle_falling_strict (res : Z) (n k : nat) :
  (0 <= res)%Z -> (Z.of_nat (n - n / 2) <= res)%Z -> (S k < n - n / 2)%nat ->
  (nth (n / 2 + S k) (generate_triangle_lut res n) 0
   < nth (n / 2 + k) (generate_triangle_lut res n) 0)%Z.
Proof.
  intros Hres Hle Hk. rewrite !nth_triangle_falling by lia.
  set (m := (n - n / 2)%nat) in *.
  assert (Hm : INR m <> 0) by (apply not_0_INR; lia).
  assert (Hpos : 0 < INR m) by (apply lt_0_INR; lia).
  assert (HR : 0 <= IZR res) by now apply IZR_le.
  assert (Hstride : 1 <= IZR res / INR m).
  { apply (Rmult_le_reg_r (INR m)); [exact Hpos |].
    unfold Rdiv. rewrite Rmult_assoc, Rinv_l by lra.
    rewrite INR_IZR_INZ. apply IZR_le in Hle. lra. }
  assert (Hf : 0 <= INR (S k) / INR m < 1) by (apply fraction_bounds; exact Hk).
  apply astype_int_gap.
  - replace (IZR res - INR (S k) * (IZR res / INR m))
      with (IZR res * (1 - INR (S k) / INR m)) by (field; exact Hm).
    apply Rmult_le_pos; lra.
  - rewrite S_INR. lra.
Qed.

(** C6.  The triangle table has a rising part of [N // 2] samples followed
    by a falling part of the remaining [N - N // 2] samples (3 and 4 for
    [N = 7]).  Each part is a ramp: sample [i] of the rising part lies
    within one step below [i * R / (N // 2)], sample [k] of the falling
    part within one step below [R - k * R / (N - N // 2)].  The table
    never decreases up to index [N // 2] and never increases from there on;
    it rises strictly when [N // 2 <= R] and falls strictly when
    [N - N // 2 <= R].  It starts at 0 when it has a rising part, never
    exceeds [R], and at index [N // 2] its value is [R]. *)
Theorem triangle_shape (res : Z) (n : nat) :
  (0 <= res)%Z ->
  let half := (n / 2)%nat in
  let lut := generate_triangle_lut res n in
  length (firstn half lut) = half
  /\ length (skipn half lut) = (n - half)%nat
  /\ (n = 7%nat -> length (firstn half lut) = 3%nat
                   /\ length (skipn half lut) = 4%nat)
  /\ (forall i : nat, (i < half)%nat ->
        (Z.of_nat half * nth i lut 0 <= Z.of_nat i * res
         <= Z.of_nat half * nth i lut 0 + Z.of_nat half)%Z)
  /\ (forall k : nat, (k < n - half)%nat ->
        (Z.of_nat (n - half) * nth (half + k) lut 0
         <= (Z.of_nat (n - half) - Z.of_nat k) * res
         <= Z.of_nat (n - half) * nth (half + k) lut 0 + Z.of_nat (n - half))%Z)
  /\ (forall i j : nat, (i <= j)%nat -> (j <= half)%nat -> (j < n)%nat ->
        (nth i lut 0 <= nth j lut 0)%Z)
  /\ (forall i j : nat, (half <= i)%nat -> (i <= j)%nat -> (j < n)%nat ->
        (nth j lut 0 <= nth i lut 0)%Z)
  /\ ((Z.of_nat half <= res)%Z ->
      forall i : nat, (S i <= half)%nat -> (S i < n)%nat ->
        (nth i lut 0 < nth (S i) lut 0)%Z)
  /\ ((Z.of_nat (n - half) <= res)%Z ->
      forall i : nat, (half <= i)%nat -> (S i < n)%nat ->
        (nth (S i) lut 0 < nth i lut 0)%Z)
  /\ ((2 <= n)%nat -> nth 0 lut 0%Z = 0%Z)
  /\ Forall (fun v => (0 <= v <= res)%Z) lut
  /\ ((0 < n)%nat -> nth half lut 0%Z = res).
Proof.
  intros Hres half lut.
  pose proof (half_le n) as Hhalf. fold half in Hhalf.
  assert (Hlen : length lut = n) by apply length_generate_triangle_lut.
  assert (Hlr : length (firstn half lut) = half)
    by (rewrite length_firstn, Hlen; lia).
  assert (Hlf : length (skipn half lut) = (n - half)%nat)
    by (rewrite length_skipn, Hlen; reflexivity).
  split; [exact Hlr |]. split; [exact Hlf |].
  split; [intros Hn; rewrite Hlr, Hlf; unfold half; rewrite Hn; split; reflexivity |].
  split.
  { intros i Hi. pose proof (triangle_rising_value res n i Hres Hi) as H.
    fold half lut in H. lia. }
  split.
  { intros k Hk. pose proof (triangle_falling_value res n k Hres Hk) as H.
    fold half lut in H. lia. }
  split.
  { intros i j Hij Hj Hjn. unfold lut.
    destruct (Nat.eq_dec j half) as [-> | Hne].
    - unfold half. rewrite triangle_peak by lia.
      apply triangle_rising_le_res; [exact Hres | lia].
    - apply triangle_rising_mono; [exact Hres | exact Hij | unfold half in *; lia]. }
  split.
  { intros i j Hi Hij Hjn. unfold lut, half in *.
    replace i with (n / 2 + (i - n / 2))%nat by lia.
    replace j with (n / 2 + (j - n / 2))%nat by lia.
    apply triangle_falling_mono; [exact Hres | lia | lia]. }
  split.
  { intros Hle i Hi Hin.
    destruct (Nat.eq_dec (S i) half) as [Heq | Hne].
    - rewrite Heq. unfold lut, half. rewrite triangle_peak by lia.
      pose proof (triangle_rising_value res n i Hres ltac:(fold half; lia)) as H.
      fold half in H.
      assert (Z.of_nat i < Z.of_nat half)%Z by lia.
      assert (0 < res)%Z by lia.
      destruct (Z.lt_ge_cases (nth i (generate_triangle_lut res n) 0%Z) res)
        as [Hlt | Hge]; [exact Hlt | nia].
    - apply triangle_rising_strict; [exact Hres | exact Hle | fold half; lia]. }
  split.
  { intros Hle i Hi Hin. unfold lut, half in *.
    replace (S i) with (n / 2 + S (i - n / 2))%nat by lia.
    replace i with (n / 2 + (i - n / 2))%nat at 2 by lia.
    apply triangle_falling_strict; [exact Hres | exact Hle | lia]. }
  split.
  { intros Hn.
    assert (H0 : (0 < half)%nat).
    { unfold half. apply Nat.div_str_pos. lia. }
    pose proof (triangle_rising_value res n 0 Hres H0) as H.
    fold half lut in H.
    pose proof (range_generate_triangle_lut res n Hres) as Hall.
    rewrite Forall_forall in Hall.
    assert (Hin : In (nth 0 lut 0%Z) lut) by (apply nth_In; lia).
    specialize (Hall _ Hin). unfold in_range in Hall. nia. }
  split.
  { exact (range_generate_triangle_lut res n Hres). }
  intros Hn. unfold lut, half. now apply triangle_peak.
Qed.

Lemma triangle_shape_witness :
  length (firstn (7 / 2) (generate_triangle_lut 4095 7)) = 3%nat
  /\ length (skipn (7 / 2) (generate_triangle_lut 4095 7)) = 4%nat
  /\ (nth 1 (generate_triangle_lut 4095 7) 0 < nth 2 (generate_triangle_lut 4095 7) 0)%Z
  /\ (nth 5 (generate_triangle_lut 4095 7) 0 < nth 4 (generate_triangle_lut 4095 7) 0)%Z
  /\ nth (7 / 2) (generate_triangle_lut 4095 7) 0%Z = 4095%Z.
Proof.
  pose proof (triangle_shape 4095 7 ltac:(lia)) as H.
  cbv zeta in H.
  destruct H as (_ & _ & H7 & _ & _ & _ & _ & Hrise & Hfall & _ & _ & Hpeak).
  destruct (H7 eq_refl) as [H3 H4].
  split; [exact H3 |]. split; [exact H4 |].
  split; [apply (Hrise ltac:(simpl; lia) 1%nat); simpl; lia |].
  split; [apply (Hfall ltac:(simpl; lia) 4%nat); simpl; lia |].
  apply Hpeak. lia.
Defined.

End Triangle.

(** ** Resampling *)

Section Resampling.
Import Numpy.

Lemma In_removelast {A : Type} (v : A) (l : list A) :
  In v (removelast l) -> In v l.
Proof.
  induction l as [| a l IH]; simpl; [tauto |].
  destruct l as [| b l]; [simpl; tauto |].
  intros [H | H]; [now left | right; now apply IH].
Qed.

(** Every point of a closed [linspace] from 0 lies between its ends. *)
Lemma linspace_closed_range (s v : R) (n : nat) :
  0 <= s -> In v (linspace 0 s n true) -> 0 <= v <= s.
Proof.
  intros Hs. unfold linspace.
  assert (Hy : forall w,
             In w (map (fun i : nat =>
                          if (0 <? n - 1)%nat then INR i * ((s - 0) / INR (n - 1)) + 0
                          else INR i * (s - 0) + 0) (seq 0 n)) ->
             0 <= w <= s).
  { intros w Hw. apply in_map_iff in Hw as [i [Hw Hi]].
    apply in_seq in Hi.
    destruct (0 <? n - 1)%nat eqn:Hd.
    - apply Nat.ltb_lt in Hd.
      assert (Hpos : 0 < INR (n - 1)) by (apply lt_0_INR; lia).
      assert (Hle : INR i <= INR (n - 1)) by (apply le_INR; lia).
      assert (H0 : 0 <= INR i) by apply pos_INR.
      assert (Hw' : w = INR i / INR (n - 1) * s) by (rewrite <- Hw; field; lra).
      assert (Hf : 0 <= INR i / INR (n - 1) <= 1).
      { split.
        - apply Rmult_le_pos; [exact H0 | left; now apply Rinv_0_lt_compat].
        - apply (Rmult_le_reg_r (INR (n - 1))); [exact Hpos |].
          unfold Rdiv. rewrite Rmult_assoc, Rinv_l by lra. lra. }
      rewrite Hw'. split; nra.
    - apply Nat.ltb_ge in Hd.
      assert (i = 0%nat) by lia. subst i. simpl in Hw. lra. }
  destruct (true && (1 <? n)%nat).
  - intros Hin. apply in_app_iff in Hin as [Hin | Hin].
    + apply Hy. now apply In_removelast.
    + simpl in Hin. destruct Hin as [<- | []]. lra.
  - apply Hy.
Qed.

Lemma take_in_bounds (a indices : list Z) :
  Forall (fun i => (0 <= i < Z.of_nat (length a))%Z) indices ->
  exists r, Generate.take a indices = Ok r /\ length r = length indices.
Proof.
  induction 1 as [| i rest Hi _ IH]; simpl.
  - now exists [].
  - destruct IH as [r [Hr Hlen]]. rewrite Hr.
    assert (Hb : ((0 <=? i) && (i <? Z.of_nat (length a)))%Z = true).
    { apply andb_true_iff. split; [apply Z.leb_le | apply Z.ltb_lt]; lia. }
    rewrite Hb. eexists. split; [reflexivity |]. simpl. now rewrite Hlen.
Qed.

Lemma length_interp (x xp fp r : list R) :
  interp x xp fp = Ok r -> length r = length x.
Proof.
  unfold interp. destruct xp; [discriminate |]. destruct fp; [discriminate |].
  intros H. injection H as <-. apply length_map.
Qed.

(** The resampling step of [generate.py] returns [n_samples] values. *)
Lemma Generate_resample_length (normalized : list Z) (n_samples : nat) :
  (1 <= length normalized)%nat ->
  exists r, Generate.resample normalized n_samples = Ok r
            /\ length r = n_samples.
Proof.
  intros HL. unfold Generate.resample.
  destruct (n_samples <? length normalized)%nat.
  - destruct (take_in_bounds normalized
                (linspace_int 0 (IZR (Z.of_nat (length normalized) - 1)) n_samples))
      as [r [Hr Hlen]].
    + unfold linspace_int. apply Forall_forall. intros i Hi.
      apply in_map_iff in Hi as [v [Hi Hv]]. subst i.
      apply linspace_closed_range in Hv; [| apply IZR_le; lia].
      apply astype_int_range in Hv. lia.
    + exists r. split; [exact Hr |].
      rewrite Hlen. unfold linspace_int. now rewrite length_map, length_linspace.
  - destruct normalized as [| z zs]; [simpl in HL; lia |].
    unfold arange. simpl length. simpl seq. simpl map at 1.
    cbn [map interp]. eexists. split; [reflexivity |].
    now rewrite !length_map, length_linspace.
Qed.

End Resampling.

Section ResamplingClaims.
Import Numpy.

(** C7.  For a table of length [L >= 1] and a target [N >= 1] the
    resampling step succeeds with exactly [N] values, whether it has to
    shorten the table (index selection, [L > N]) or to lengthen it
    (interpolation, [L < N]); the result is never partial or empty. *)
Theorem resample_returns_target_length (normalized : list Z) (n : nat) :
  (1 <= length normalized)%nat ->
  (1 <= n)%nat ->
  exists r, Generate.resample normalized n = Ok r /\ length r = n /\ r <> [].
Proof.
  intros HL HN.
  destruct (Generate_resample_length normalized n HL) as [r [Hr Hlen]].
  exists r. split; [exact Hr |]. split; [exact Hlen |].
  intros ->. simpl in Hlen. lia.
Qed.

Lemma resample_returns_target_length_witness :
  (exists r, Generate.resample [10; 20; 30]%Z 2 = Ok r /\ length r = 2%nat /\ r <> [])
  /\ (exists r, Generate.resample [10; 20]%Z 5 = Ok r /\ length r = 5%nat /\ r <> []).
Proof.
  split.
  - apply (resample_returns_target_length [10; 20; 30]%Z 2); simpl; lia.
  - apply (resample_returns_target_length [10; 20]%Z 5); simpl; lia.
Defined.

Lemma seq_snoc (n : nat) : seq 0 (S n) = seq 0 n ++ [n].
Proof. now rewrite seq_S. Qed.

(** Sampling [[0, L-1]] at [L] points with the end point gives the
    positions 0, 1, ..., L-1. *)
Lemma linspace_closed_positions (L : nat) :
  (1 <= L)%nat ->
  linspace 0 (IZR (Z.of_nat L - 1)) L true = arange L.
Proof.
  intros HL. unfold linspace, arange.
  destruct L as [| k]; [lia |].
  replace (Z.of_nat (S k) - 1)%Z with (Z.of_nat k) by lia.
  rewrite <- INR_IZR_INZ.
  replace (S k - 1)%nat with k by lia.
  destruct k as [| k].
  - simpl. f_equal. ring.
  - assert (Hk : (0 <? S k)%nat = true) by (apply Nat.ltb_lt; lia).
    assert (H1 : (1 <? S (S k))%nat = true) by (apply Nat.ltb_lt; lia).
    rewrite Hk, H1. cbn [andb].
    assert (Hpos : INR (S k) <> 0) by (apply not_0_INR; lia).
    rewrite (map_ext (fun i : nat => INR i * ((INR (S k) - 0) / INR (S k)) + 0) INR)
      by (intros i; field; exact Hpos).
    rewrite (seq_snoc (S k)), map_app. simpl map at 2.
    now rewrite removelast_last.
Qed.

(** At the [j]-th sample point after [k], interpolation returns the
    [j]-th sample value. *)
Lemma interp_from_at_knot (ys : list R) :
  forall (k j : nat) (y0 : R),
    (j <= length ys)%nat ->
    interp_from (INR (k + j)) (INR k) y0 (map INR (seq (S k) (length ys))) ys
    = nth j (y0 :: ys) 0.
Proof.
  induction ys as [| y1 ys IH]; intros k j y0 Hj.
  - simpl in Hj. assert (j = 0%nat) by lia. subst j. reflexivity.
  - cbn [length seq map interp_from].
    destruct j as [| j].
    + rewrite Nat.add_0_r.
      destruct (Rlt_dec (INR k) (INR (S k))) as [_ | Hn].
      * destruct (Req_dec_T (INR k) (INR k)) as [_ | Hne]; [reflexivity | congruence].
      * exfalso. apply Hn. apply lt_INR. lia.
    + destruct (Rlt_dec (INR (k + S j)) (INR (S k))) as [Hlt | _].
      * exfalso. apply INR_lt in Hlt. lia.
      * replace (k + S j)%nat with (S k + j)%nat by lia.
        rewrite IH by (simpl in Hj; lia). reflexivity.
Qed.

Lemma map_nth_seq {A : Type} (l : list A) (d : A) :
  map (fun i => nth i l d) (seq 0 (length l)) = l.
Proof.
  apply (nth_ext _ _ d d).
  - now rewrite length_map, length_seq.
  - intros i Hi. rewrite length_map, length_seq in Hi.
    rewrite (nth_map_lt _ _ _ _ 0%nat) by (now rewrite length_seq).
    now rewrite seq_nth.
Qed.

Lemma interp_cons (x xp fp : list R) (x0 y0 : R) :
  interp x (x0 :: xp) (y0 :: fp)
  = Ok (map (fun q => if Rlt_dec q x0 then y0 else interp_from q x0 y0 xp fp) x).
Proof. reflexivity. Qed.

Lemma interp_at_positions (fp : list R) :
  (1 <= length fp)%nat ->
  interp (arange (length fp)) (arange (length fp)) fp = Ok fp.
Proof.
  intros HL. destruct fp as [| y0 ys]; [simpl in HL; lia |].
  change (arange (length (y0 :: ys)))
    with (INR 0 :: map INR (seq 1 (length ys))) at 2.
  rewrite interp_cons. f_equal.
  unfold arange. rewrite map_map.
  transitivity (map (fun i => nth i (y0 :: ys) 0) (seq 0 (length (y0 :: ys))));
    [| apply map_nth_seq].
  apply map_ext_in. intros i Hi. apply in_seq in Hi.
  destruct (Rlt_dec (INR i) (INR 0)) as [Hlt | _].
  - exfalso. apply INR_lt in Hlt. lia.
  - apply (interp_from_at_knot ys 0 i y0). simpl in Hi. lia.
Qed.

Lemma map_astype_int_IZR (l : list Z) : map astype_int (map IZR l) = l.
Proof.
  rewrite map_map. rewrite <- (map_id l) at 2.
  apply map_ext. intros z. apply astype_int_IZR.
Qed.

(** C8.  Resampling a table to its own length gives the table back: the
    integer table passes through interpolation at its own positions and is
    truncated back to itself (for a non-empty table, that is a target
    [N >= 1]). *)
Theorem resample_same_length_identity (normalized : list Z) :
  (1 <= length normalized)%nat ->
  Generate.resample normalized (length normalized) = Ok normalized.
Proof.
  intros HL.
  unfold Generate.resample. rewrite Nat.ltb_irrefl.
  rewrite linspace_closed_positions by exact HL.
  rewrite <- (length_map IZR normalized) at 1 2.
  rewrite interp_at_positions by (now rewrite length_map).
  now rewrite map_astype_int_IZR.
Qed.

Lemma resample_same_length_identity_witness :
  Generate.resample [5; 9; 2]%Z 3 = Ok [5; 9; 2]%Z.
Proof.
  apply (resample_same_length_identity [5; 9; 2]%Z). simpl. lia.
Defined.

End ResamplingClaims.

(** ** Failing sources *)

Section Failure.
Import Numpy.

Lemma Generate_process_wav_file_read_failure
    (res : Z) (e : exn) (filepath : string) (n_samples : nat) :
  Generate.process_wav_file res (Raise e) filepath n_samples
  = (Ok (Generate.generate_sine_lut res n_samples, 44100%Z),
     [ErrorLine filepath e; Line "Using placeholder sine wave instead"]).
Proof. reflexivity. Qed.

(** Whatever [wavfile.read] returned, [process_wav_file] of [generate.py]
    returns a pair: no exception leaves it. *)
Lemma Generate_process_wav_file_total
    (res : Z) (read : result Generate.wav_data) (filepath : string) (n_samples : nat) :
  exists r out,
    Generate.process_wav_file res read filepath n_samples = (Ok r, out).
Proof.
  unfold Generate.process_wav_file, try_except.
  match goal with
  | |- exists r out, match ?body with _ => _ end = _ =>
      destruct body as [[a | e] out]
  end.
  - now exists a, out.
  - eexists. eexists. reflexivity.
Qed.

(** The loop of [generate.py] appends one entry per source, in order, and
    an entry is what [process_wav_file] returned for that source. *)
Lemma audio_luts_loop_entries (res : Z) (fs : string -> result Generate.wav_data)
    (n_samples : nat) (wav_files : list (string * string)) :
  forall acc,
  exists l,
    fst (Generate.audio_luts_loop res fs wav_files n_samples acc) = Ok (acc ++ l)
    /\ length l = length wav_files
    /\ forall k filepath name,
         nth_error wav_files k = Some (filepath, name) ->
         exists lut sr,
           fst (Generate.process_wav_file res (fs filepath) filepath n_samples)
           = Ok (lut, sr)
           /\ nth_error l k = Some (lut, name, sr).
Proof.
  induction wav_files as [| [filepath name] rest IH]; intros acc.
  - exists []. simpl. rewrite app_nil_r. repeat split.
    intros k fp nm Hk. destruct k; discriminate.
  - cbn [Generate.audio_luts_loop]. unfold bind.
    destruct (Generate_process_wav_file_total res (fs filepath) filepath n_samples)
      as [[lut sr] [out Hp]].
    rewrite Hp. cbn [fst snd].
    destruct (IH (acc ++ [(lut, name, sr)])) as [l [Hl [Hlen Hent]]].
    destruct (Generate.audio_luts_loop res fs rest n_samples (acc ++ [(lut, name, sr)]))
      as [r out'].
    cbn [fst] in *. exists ((lut, name, sr) :: l).
    split; [rewrite Hl, <- app_assoc; reflexivity |].
    split; [simpl; now rewrite Hlen |].
    intros k fp nm Hk. destruct k as [| k].
    + simpl in Hk. injection Hk as <- <-.
      exists lut, sr. rewrite Hp. now split.
    + simpl in Hk. now apply Hent.
Qed.

End Failure.

Section FailureClaims.
Import Numpy.

(** C4.  A source that cannot be read or decoded never aborts the run:
    [process_wav_file] prints the error and returns the sine table of the
    requested length [N], all values within [[0, R]]; the loop yields one
    entry per source, and an entry depends on its own source only, so the
    failure leaves the other sources' tables unchanged. *)
Theorem failing_source_gets_sine_placeholder
    (res : Z) (e : exn) (filepath : string) (n : nat) :
  (0 <= res)%Z ->
  Generate.process_wav_file res (Raise e) filepath n
  = (Ok (Generate.generate_sine_lut res n, 44100%Z),
     [ErrorLine filepath e; Line "Using placeholder sine wave instead"])
  /\ length (Generate.generate_sine_lut res n) = n
  /\ Forall (in_range res) (Generate.generate_sine_lut res n)
  /\ (forall fs wav_files,
        exists l, fst (Generate.audio_luts res fs wav_files n) = Ok l
                  /\ length l = length wav_files)
  /\ (forall fs fs' wav_files l l' k fp name,
        fst (Generate.audio_luts res fs wav_files n) = Ok l ->
        fst (Generate.audio_luts res fs' wav_files n) = Ok l' ->
        nth_error wav_files k = Some (fp, name) ->
        fs fp = fs' fp ->
        nth_error l k = nth_error l' k).
Proof.
  intros Hres.
  split; [apply Generate_process_wav_file_read_failure |].
  split; [apply length_generate_sine_lut |].
  split; [now apply range_generate_sine_lut |].
  split.
  - intros fs wav_files. unfold Generate.audio_luts.
    destruct (audio_luts_loop_entries res fs n wav_files []) as [l [Hl [Hlen _]]].
    exists l. now split.
  - intros fs fs' wav_files l l' k fp name Hl Hl' Hk Hfs.
    unfold Generate.audio_luts in Hl, Hl'.
    destruct (audio_luts_loop_entries res fs n wav_files []) as [m [Hm [_ Hent]]].
    destruct (audio_luts_loop_entries res fs' n wav_files []) as [m' [Hm' [_ Hent']]].
    rewrite Hm in Hl. rewrite Hm' in Hl'.
    injection Hl as <-. injection Hl' as <-. cbn [app].
    destruct (Hent k fp name Hk) as [lut [sr [Hp Hn]]].
    destruct (Hent' k fp name Hk) as [lut' [sr' [Hp' Hn']]].
    rewrite <- Hfs, Hp in Hp'. injection Hp' as <- <-.
    now rewrite Hn, Hn'.
Qed.

Lemma failing_source_gets_sine_placeholder_witness :
  Generate.process_wav_file 4095 (Raise OSError) "drum.wav" 3333
  = (Ok (Generate.generate_sine_lut 4095 3333, 44100%Z),
     [ErrorLine "drum.wav" OSError; Line "Using placeholder sine wave instead"])
  /\ length (Generate.generate_sine_lut 4095 3333) = 3333%nat
  /\ Forall (in_range 4095) (Generate.generate_sine_lut 4095 3333).
Proof.
  pose proof (failing_source_gets_sine_placeholder 4095 OSError "drum.wav" 3333
                ltac:(lia)) as (H1 & H2 & H3 & _).
  split; [exact H1 |]. split; [exact H2 | exact H3].
Defined.

End FailureClaims.

(** ** Sample runs *)

Section SampleRuns.
Import Numpy.

Example remove_wav_piano : WavLUT.remove_wav 0 "piano.wav" = "piano"%string.
Proof. reflexivity. Qed.

(** Three samples to two in [generate.py]: the positions 0 and 2. *)
Example Generate_resample_down :
  Generate.resample [10; 20; 30]%Z 2 = Ok [10; 30]%Z.
Proof.
  assert (H : linspace_int 0 (IZR (Z.of_nat (length [10; 20; 30]%Z) - 1)) 2
              = [0; 2]%Z).
  { unfold linspace_int, linspace. simpl.
    apply cons_eq; [apply astype_int_between; lra |].
    apply cons_eq; [apply (astype_int_IZR 2) | reflexivity]. }
  unfold Generate.resample. cbv zeta. rewrite H. reflexivity.
Qed.

(** An empty table cannot be interpolated. *)
Example Generate_resample_empty :
  Generate.resample [] 4 = Raise (ValueError "array of sample points is empty").
Proof. reflexivity. Qed.

(** With an empty table the audio path of [generate.py] ends in the
    placeholder. *)
Example Generate_process_empty_data :
  fst (Generate.process_wav_file 4095
         (Ok {| Generate.sample_rate := 8000;
                Generate.data_dtype := Generate.int16;
                Generate.data := Generate.Mono [] |})
         "piano.wav" 4)
  = Ok (Generate.generate_sine_lut 4095 4, 44100%Z).
Proof. reflexivity. Qed.

Example samples_per_waveform : Generate.SAMPLES_PER_WAVEFORM = 3333%nat.
Proof. reflexivity. Qed.

End SampleRuns.

(** * Names and tables: the built-ins of [wav_LUT_vals.py] *)

Section Dict.

Lemma dict_get_set_same (d : list (string * list Z)) (key : string) (lut : list Z) :
  WavLUT.dict_get (WavLUT.dict_set d key lut) key = Some lut.
Proof.
  induction d as [| [k v] d IH]; simpl.
  - now rewrite String.eqb_refl.
  - destruct (String.eqb k key) eqn:Hk; simpl; rewrite Hk; [reflexivity | exact IH].
Qed.

Lemma dict_get_set_other (d : list (string * list Z)) (key key' : string) (lut : list Z) :
  key' <> key ->
  WavLUT.dict_get (WavLUT.dict_set d key lut) key' = WavLUT.dict_get d key'.
Proof.
  intros Hne. induction d as [| [k v] d IH]; simpl.
  - destruct (String.eqb key key') eqn:Hk; [| reflexivity].
    apply String.eqb_eq in Hk. congruence.
  - destruct (String.eqb k key) eqn:Hk; simpl.
    + apply String.eqb_eq in Hk. subst k.
      destruct (String.eqb key key') eqn:Hk'; [| reflexivity].
      apply String.eqb_eq in Hk'. congruence.
    + destruct (String.eqb k key'); [reflexivity | exact IH].
Qed.

Lemma dict_set_keys (d : list (string * list Z)) (key : string) (lut : list Z) :
  map fst (WavLUT.dict_set d key lut)
  = if existsb (String.eqb key) (map fst d) then map fst d
    else map fst d ++ [key].
Proof.
  induction d as [| [k v] d IH]; simpl; [reflexivity |].
  rewrite (String.eqb_sym key k).
  destruct (String.eqb k key) eqn:Hk; simpl; [reflexivity |].
  rewrite IH. now destruct (existsb (String.eqb key) (map fst d)).
Qed.

(** X11.  Storing a table under a name and looking names up: the name just
    stored gives the new table, every other name gives what it gave
    before. *)
Theorem dict_set_then_get (d : list (string * list Z)) (key key' : string) (lut : list Z) :
  WavLUT.dict_get (WavLUT.dict_set d key lut) key = Some lut
  /\ (key' <> key ->
      WavLUT.dict_get (WavLUT.dict_set d key lut) key' = WavLUT.dict_get d key').
Proof.
  split; [apply dict_get_set_same | apply dict_get_set_other].
Qed.

(** X12.  Storing under a name already present keeps the order of the
    names; a new name goes to the end; names stay distinct. *)
Theorem dict_set_keeps_names_distinct
    (d : list (string * list Z)) (key : string) (lut : list Z) :
  NoDup (map fst d) ->
  NoDup (map fst (WavLUT.dict_set d key lut))
  /\ (In key (map fst d) -> map fst (WavLUT.dict_set d key lut) = map fst d)
  /\ (~ In key (map fst d) ->
      map fst (WavLUT.dict_set d key lut) = map fst d ++ [key]).
Proof.
  intros Hnd. rewrite dict_set_keys.
  destruct (existsb (String.eqb key) (map fst d)) eqn:Hex.
  - apply existsb_exists in Hex as [k [Hk Heq]]. apply String.eqb_eq in Heq. subst k.
    split; [exact Hnd |]. split; [reflexivity | contradiction].
  - assert (Hnot : ~ In key (map fst d)).
    { intros Hin.
      assert (existsb (String.eqb key) (map fst d) = true).
      { apply existsb_exists. exists key. split; [exact Hin | apply String.eqb_refl]. }
      congruence. }
    split; [| split; [contradiction | reflexivity]].
    apply NoDup_app; [exact Hnd | repeat constructor; simpl; tauto |].
    intros k Hk [<- | []]. contradiction.
Qed.

Lemma dict_set_keeps_names_distinct_witness :
  NoDup (map fst (WavLUT.dict_set [("piano"%string, [1%Z])] "drum" [2%Z])).
Proof.
  apply (dict_set_keeps_names_distinct [("piano"%string, [1%Z])] "drum" [2%Z]).
  simpl. repeat constructor. simpl. tauto.
Defined.

(** X13.  For a file name made of a dot-free stem and the extension
    [.wav], the name of the table is the stem. *)
Theorem remove_wav_gives_stem (stem : string) :
  (forall c, In c (list_ascii_of_string stem) -> c <> "."%char) ->
  WavLUT.remove_wav 0 (stem ++ ".wav") = stem.
Proof.
  induction stem as [| c s IH]; intros Hdot; [reflexivity |].
  cbn [String.append WavLUT.remove_wav].
  assert (Hc : c <> "."%char) by (apply Hdot; now left).
  assert (Hp : prefix ".wav" (String c (s ++ ".wav")) = false).
  { cbn [prefix]. destruct (Ascii.ascii_dec "." c) as [Heq | _]; [| reflexivity].
    congruence. }
  rewrite Hp. f_equal. apply IH. intros c' Hc'. apply Hdot. now right.
Qed.

Lemma remove_wav_gives_stem_witness :
  WavLUT.remove_wav 0 ("guitar" ++ ".wav") = "guitar"%string.
Proof.
  apply (remove_wav_gives_stem "guitar").
  intros c Hc. simpl in Hc.
  repeat (destruct Hc as [<- | Hc]; [discriminate |]). destruct Hc.
Defined.

End Dict.

(** * Further properties of the audio path of [generate.py] *)

Section GeneratePipeline.
Import Numpy.

Lemma clip_range (a : list Z) (hi : Z) :
  (0 <= hi)%Z -> Forall (in_range hi) (clip a 0 hi).
Proof.
  intros Hhi. unfold clip. apply Forall_forall. intros v Hv.
  apply in_map_iff in Hv as [u [<- _]]. unfold in_range. lia.
Qed.

Lemma take_ok (a indices r : list Z) :
  Generate.take a indices = Ok r ->
  length r = length indices /\ Forall (fun v => In v a) r.
Proof.
  revert r. induction indices as [| i rest IH]; intros r H.
  - simpl in H. injection H as <-. split; [reflexivity | constructor].
  - cbn [Generate.take] in H.
    destruct ((0 <=? i) && (i <? Z.of_nat (length a)))%Z eqn:Hin.
    + destruct (Generate.take a rest) as [r' | e]; [| discriminate].
      injection H as <-. destruct (IH r' eq_refl) as [Hlen Hall].
      split; [simpl; now rewrite Hlen |].
      constructor; [| exact Hall].
      apply andb_true_iff in Hin as [H0 H1].
      apply Z.leb_le in H0. apply Z.ltb_lt in H1.
      apply nth_In. lia.
    + destruct ((- Z.of_nat (length a) <=? i) && (i <? 0))%Z eqn:Hneg; [| discriminate].
      destruct (Generate.take a rest) as [r' | e]; [| discriminate].
      injection H as <-. destruct (IH r' eq_refl) as [Hlen Hall].
      split; [simpl; now rewrite Hlen |].
      constructor; [| exact Hall].
      apply andb_true_iff in Hneg as [H0 H1].
      apply Z.leb_le in H0. apply Z.ltb_lt in H1.
      apply nth_In. lia.
Qed.

(** Whenever the resampling step of [generate.py] returns, it returns
    [n_samples] values. *)
Lemma Generate_resample_ok_length (normalized r : list Z) (n_samples : nat) :
  Generate.resample normalized n_samples = Ok r -> length r = n_samples.
Proof.
  unfold Generate.resample.
  destruct (n_samples <? length normalized)%nat.
  - intros H. apply take_ok in H as [Hlen _].
    rewrite Hlen. unfold linspace_int. now rewrite length_map, length_linspace.
  - destruct (interp _ _ _) as [v | e] eqn:Hi; [| discriminate].
    intros H. injection H as <-.
    apply length_interp in Hi. now rewrite length_map, Hi, length_linspace.
Qed.

(** What [process_wav_file] of [generate.py] returns: the clipped
    resampled table with the rate of the file, or the placeholder with
    44100. *)
Lemma Generate_process_wav_file_cases
    (res : Z) (read : result Generate.wav_data) (filepath : string) (n_samples : nat) :
  (exists out,
      Generate.process_wav_file res read filepath n_samples
      = (Ok (Generate.generate_sine_lut res n_samples, 44100%Z), out))
  \/ (exists w normalized resampled out,
         read = Ok w
         /\ length normalized
            = match Generate.data w with
              | Generate.Mono d => length d
              | Generate.Multi rows => length rows
              end
         /\ Generate.resample normalized n_samples = Ok resampled
         /\ resampled <> []
         /\ Generate.process_wav_file res read filepath n_samples
            = (Ok (clip resampled 0 res, Generate.sample_rate w), out)).
Proof.
  destruct read as [w | e]; [| left; eexists; reflexivity].
  cbv beta iota zeta delta
    [Generate.process_wav_file bind lift print try_except ret].
  destruct (Generate.data w) as [d | rows] eqn:Hdata.
  - destruct (Generate.resample (Generate.normalize res (Generate.data_dtype w) d)
                n_samples) as [r | e] eqn:Hr; [| left; eexists; reflexivity].
    destruct (Generate.array_min (clip r 0 res)) as [m | e] eqn:Hm;
      [| left; eexists; reflexivity].
    right. exists w, (Generate.normalize res (Generate.data_dtype w) d), r.
    eexists. split; [reflexivity |].
    split; [rewrite Hdata; unfold Generate.normalize;
            destruct (Generate.data_dtype w); apply length_map |].
    split; [exact Hr |].
    split; [intros ->; discriminate | reflexivity].
  - destruct (Generate.resample
                (Generate.normalize res (Generate.data_dtype w) (map fst rows))
                n_samples) as [r | e] eqn:Hr; [| left; eexists; reflexivity].
    destruct (Generate.array_min (clip r 0 res)) as [m | e] eqn:Hm;
      [| left; eexists; reflexivity].
    right. exists w, (Generate.normalize res (Generate.data_dtype w) (map fst rows)), r.
    eexists. split; [reflexivity |].
    split; [rewrite Hdata; unfold Generate.normalize;
            destruct (Generate.data_dtype w); now rewrite !length_map |].
    split; [exact Hr |].
    split; [intros ->; discriminate | reflexivity].
Qed.

Lemma Generate_process_wav_file_returns
    (res : Z) (read : result Generate.wav_data) (filepath : string) (n_samples : nat) :
  (0 <= res)%Z ->
  exists lut sr out,
    Generate.process_wav_file res read filepath n_samples = (Ok (lut, sr), out)
    /\ length lut = n_samples
    /\ Forall (in_range res) lut.
Proof.
  intros Hres.
  destruct (Generate_process_wav_file_cases res read filepath n_samples)
    as [[out H] | (w & normalized & r & out & _ & _ & Hr & _ & H)].
  - exists (Generate.generate_sine_lut res n_samples), 44100%Z, out.
    split; [exact H |].
    split; [apply length_generate_sine_lut | now apply range_generate_sine_lut].
  - exists (clip r 0 res), (Generate.sample_rate w), out.
    split; [exact H |].
    split; [| now apply clip_range].
    unfold clip. rewrite length_map. now apply (Generate_resample_ok_length normalized).
Qed.

(** X15.  Whatever [wavfile.read] returned, and for every requested
    length, [process_wav_file] of [generate.py] returns a table of exactly
    [n_samples] values, all within [[0, RESOLUTION]]. *)
Theorem Generate_process_wav_file_postcondition
    (res : Z) (read : result Generate.wav_data) (filepath : string) (n_samples : nat) :
  (0 <= res)%Z ->
  exists lut sr out,
    Generate.process_wav_file res read filepath n_samples = (Ok (lut, sr), out)
    /\ length lut = n_samples
    /\ Forall (in_range res) lut.
Proof.
  intros Hres.
  destruct (Generate_process_wav_file_cases res read filepath n_samples)
    as [[out H] | (w & normalized & r & out & _ & _ & Hr & _ & H)].
  - exists (Generate.generate_sine_lut res n_samples), 44100%Z, out.
    split; [exact H |].
    split; [apply length_generate_sine_lut | now apply range_generate_sine_lut].
  - exists (clip r 0 res), (Generate.sample_rate w), out.
    split; [exact H |].
    split; [| now apply clip_range].
    unfold clip. rewrite length_map. now apply (Generate_resample_ok_length normalized).
Qed.

Lemma Generate_process_wav_file_postcondition_witness :
  exists lut sr out,
    Generate.process_wav_file Generate.RESOLUTION (Raise OSError) "piano.wav" 3333
    = (Ok (lut, sr), out)
    /\ length lut = 3333%nat
    /\ Forall (in_range Generate.RESOLUTION) lut.
Proof.
  apply (Generate_process_wav_file_postcondition Generate.RESOLUTION).
  unfold Generate.RESOLUTION. lia.
Defined.

(** X16.  When the file was read, holds at least one frame, and at least
    one sample is requested, no placeholder is used: the function prints
    its progress lines and no error line, and returns a table of
    [n_samples] values together with the rate of the file. *)
Theorem Generate_process_wav_file_uses_file
    (res : Z) (w : Generate.wav_data) (filepath : string) (n_samples : nat) :
  (1 <= n_samples)%nat ->
  (1 <= match Generate.data w with
        | Generate.Mono d => length d
        | Generate.Multi rows => length rows
        end)%nat ->
  exists lut,
    Generate.process_wav_file res (Ok w) filepath n_samples
    = (Ok (lut, Generate.sample_rate w),
       [Line "Processing"; Line "Sample rate"; Line "Original samples";
        Line "Data type"]
       ++ match Generate.data w with
          | Generate.Mono _ => []
          | Generate.Multi _ => [Line "Converted stereo to mono"]
          end
       ++ [Line "Resampled to"; Line "Value range"])
    /\ length lut = n_samples.
Proof.
  intros Hn HL.
  set (d := match Generate.data w with
            | Generate.Mono d => d
            | Generate.Multi rows => map fst rows
            end).
  assert (Hlen : (1 <= length (Generate.normalize res (Generate.data_dtype w) d))%nat).
  { unfold Generate.normalize, d.
    destruct (Generate.data_dtype w); destruct (Generate.data w);
      rewrite ?length_map; exact HL. }
  destruct (Generate_resample_length _ n_samples Hlen) as [r [Hr Hrl]].
  assert (Hm : exists m, Generate.array_min (clip r 0 res) = Ok m).
  { destruct r as [| v r]; [simpl in Hrl; lia |]. eexists. reflexivity. }
  destruct Hm as [m Hm].
  exists (clip r 0 res).
  split; [| unfold clip; now rewrite length_map].
  cbv beta iota zeta delta
    [Generate.process_wav_file bind lift print try_except ret].
  unfold d in Hr.
  destruct (Generate.data w) as [d0 | rows]; rewrite Hr, Hm; reflexivity.
Qed.

Lemma Generate_process_wav_file_uses_file_witness :
  exists lut,
    Generate.process_wav_file 4095
      (Ok {| Generate.sample_rate := 8000;
             Generate.data_dtype := Generate.int16;
             Generate.data := Generate.Multi [(0, [5]); (100, [7])] |})
      "piano.wav" 2
    = (Ok (lut, 8000%Z),
       [Line "Processing"; Line "Sample rate"; Line "Original samples";
        Line "Data type"; Line "Converted stereo to mono";
        Line "Resampled to"; Line "Value range"])
    /\ length lut = 2%nat.
Proof.
  apply (Generate_process_wav_file_uses_file 4095
           {| Generate.sample_rate := 8000;
              Generate.data_dtype := Generate.int16;
              Generate.data := Generate.Multi [(0, [5]); (100, [7])] |}
           "piano.wav" 2);
    simpl; lia.
Defined.

End GeneratePipeline.

Section GenerateBatch.
Import Numpy.

Lemma audio_luts_loop_shape (res : Z) (fs : string -> result Generate.wav_data)
    (n_samples : nat) (wav_files : list (string * string)) :
  (0 <= res)%Z ->
  forall acc,
  exists l,
    fst (Generate.audio_luts_loop res fs wav_files n_samples acc) = Ok (acc ++ l)
    /\ map (fun entry => snd (fst entry)) l = map snd wav_files
    /\ Forall (fun entry => length (fst (fst entry)) = n_samples
                            /\ Forall (in_range res) (fst (fst entry))) l.
Proof.
  intros Hres. induction wav_files as [| [filepath name] rest IH]; intros acc.
  - exists []. simpl. rewrite app_nil_r. repeat split. constructor.
  - cbn [Generate.audio_luts_loop]. unfold bind.
    destruct (Generate_process_wav_file_returns res (fs filepath) filepath n_samples Hres)
      as (lut & sr & out & Hp & Hlen & Hrange).
    rewrite Hp. cbn [fst snd].
    destruct (IH (acc ++ [(lut, name, sr)])) as [l [Hl [Hnames Hall]]].
    destruct (Generate.audio_luts_loop res fs rest n_samples (acc ++ [(lut, name, sr)]))
      as [r out'].
    cbn [fst] in *. exists ((lut, name, sr) :: l).
    split; [rewrite Hl, <- app_assoc; reflexivity |].
    split; [simpl; now rewrite Hnames |].
    constructor; [split; assumption | exact Hall].
Qed.

(** X17.  The loop over the audio files of [generate.py] always completes:
    it yields one entry per listed file, carrying the listed names in
    order, and every table in it has [n_samples] values within
    [[0, RESOLUTION]], whichever files could be read. *)
Theorem audio_luts_complete (res : Z) (fs : string -> result Generate.wav_data)
    (wav_files : list (string * string)) (n_samples : nat) :
  (0 <= res)%Z ->
  exists l,
    fst (Generate.audio_luts res fs wav_files n_samples) = Ok l
    /\ map (fun entry => snd (fst entry)) l = map snd wav_files
    /\ Forall (fun entry => length (fst (fst entry)) = n_samples
                            /\ Forall (in_range res) (fst (fst entry))) l.
Proof.
  intros Hres. unfold Generate.audio_luts.
  destruct (audio_luts_loop_shape res fs n_samples wav_files Hres [])
    as [l [Hl H]].
  exists l. split; [exact Hl | exact H].
Qed.

Lemma audio_luts_complete_witness :
  exists l,
    fst (Generate.audio_luts 4095 (fun _ => Raise OSError)
           [("a.wav", "piano_lut"); ("b.wav", "drum_lut")]%string 4) = Ok l
    /\ map (fun entry => snd (fst entry)) l = ["piano_lut"; "drum_lut"]%string.
Proof.
  destruct (audio_luts_complete 4095 (fun _ => Raise OSError)
              [("a.wav", "piano_lut"); ("b.wav", "drum_lut")]%string 4 ltac:(lia))
    as [l [Hl [Hn _]]].
  exists l. split; [exact Hl | exact Hn].
Defined.

Lemma astype_int_half (res : Z) :
  (0 <= res)%Z -> astype_int (1 / 2 * IZR res) = (res / 2)%Z.
Proof.
  intros Hres.
  pose proof (Z.div_mod res 2 ltac:(lia)) as Hdm.
  pose proof (Z.mod_pos_bound res 2 ltac:(lia)) as Hmod.
  apply astype_int_between.
  - apply IZR_le in Hres. lra.
  - assert (Hr : IZR res = 2 * IZR (res / 2) + IZR (res mod 2)).
    { rewrite <- mult_IZR, <- plus_IZR. f_equal. exact Hdm. }
    assert (0 <= IZR (res mod 2) <= 1) by (split; apply IZR_le; lia).
    lra.
Qed.

(** X18.  The fixed-range normalisation keeps one value per sample.  For
    16-bit and 8-bit data it preserves the order of the samples; 16-bit
    samples within [[-32768, 32767]] and 8-bit samples within [[0, 255]]
    land in [[0, RESOLUTION]], the lowest sample value on 0 and the highest
    on [RESOLUTION].  For 32-bit data the order is not preserved: the
    largest sample wraps around in [data + 1] and lands far below the
    value of the sample 0. *)
Theorem Generate_normalize_fixed_range (res : Z) (d : list R) :
  (0 <= res)%Z ->
  (forall dt, length (Generate.normalize res dt d) = length d)
  /\ (forall dt i j, dt = Generate.int16 \/ dt = Generate.uint8 ->
        (i < length d)%nat -> (j < length d)%nat ->
        nth i d 0 <= nth j d 0 ->
        (nth i (Generate.normalize res dt d) 0
         <= nth j (Generate.normalize res dt d) 0)%Z)
  /\ (Forall (fun v => -32768 <= v <= 32767) d ->
      Forall (in_range res) (Generate.normalize res Generate.int16 d))
  /\ (Forall (fun v => 0 <= v <= 255) d ->
      Forall (in_range res) (Generate.normalize res Generate.uint8 d))
  /\ Generate.normalize res Generate.int16 [-32768; 32767] = [0; res]%Z
  /\ Generate.normalize res Generate.uint8 [0; 255] = [0; res]%Z
  /\ Generate.normalize res Generate.int32 [0; 2147483647]
     = [res / 2; - (1073741824 * res)]%Z.
Proof.
  intros Hres. pose proof (IZR_le _ _ Hres) as HR. simpl in HR.
  split; [intros dt; destruct dt; apply length_map |].
  split.
  { intros dt i j [-> | ->] Hi Hj Hle; unfold Generate.normalize;
      rewrite !(nth_map_lt _ _ _ _ 0) by assumption;
      apply astype_int_mono; nra. }
  split.
  { intros Hall. unfold Generate.normalize.
    apply Forall_forall. intros z Hz.
    apply in_map_iff in Hz as [v [<- Hv]].
    rewrite Forall_forall in Hall. specialize (Hall v Hv).
    apply astype_int_range. split; nra. }
  split.
  { intros Hall. unfold Generate.normalize.
    apply Forall_forall. intros z Hz.
    apply in_map_iff in Hz as [v [<- Hv]].
    rewrite Forall_forall in Hall. specialize (Hall v Hv).
    apply astype_int_range. split; nra. }
  split; [| split].
  - unfold Generate.normalize. cbn [map].
    apply cons_eq; [| apply cons_eq; [| reflexivity]].
    + replace ((-32768 + 32768) / 65535 * IZR res) with (IZR 0) by (field; lra).
      apply astype_int_IZR.
    + replace ((32767 + 32768) / 65535 * IZR res) with (IZR res) by field.
      apply astype_int_IZR.
  - unfold Generate.normalize. cbn [map].
    apply cons_eq; [| apply cons_eq; [| reflexivity]].
    + replace (0 / 255 * IZR res) with (IZR 0) by (field; lra).
      apply astype_int_IZR.
    + replace (255 / 255 * IZR res) with (IZR res) by field.
      apply astype_int_IZR.
  - unfold Generate.normalize, Generate.add_one_int32. cbn [map].
    apply cons_eq; [| apply cons_eq; [| reflexivity]].
    + destruct (Rle_dec 2147483648 (0 + 1)) as [H | _]; [lra |].
      replace ((0 + 1) / 2 * IZR res) with (1 / 2 * IZR res) by lra.
      now apply astype_int_half.
    + destruct (Rle_dec 2147483648 (2147483647 + 1)) as [_ | H]; [| lra].
      replace ((2147483647 + 1 - 4294967296) / 2 * IZR res)
        with (IZR (- (1073741824 * res))).
      * apply astype_int_IZR.
      * rewrite opp_IZR, mult_IZR. lra.
Qed.

Lemma Generate_normalize_fixed_range_witness :
  length (Generate.normalize 4095 Generate.int32 [-5; 0; 7]) = 3%nat
  /\ Forall (in_range 4095) (Generate.normalize 4095 Generate.int16 [-5; 0; 7])
  /\ (nth 0 (Generate.normalize 4095 Generate.int16 [-5; 0; 7]%R) 0
      <= nth 2 (Generate.normalize 4095 Generate.int16 [-5; 0; 7]%R) 0)%Z.
Proof.
  pose proof (Generate_normalize_fixed_range 4095 [-5; 0; 7] ltac:(lia))
    as (Hlen & Hord & H16 & _).
  split; [apply Hlen |]. split.
  - apply H16. repeat constructor; lra.
  - apply (Hord Generate.int16 0%nat 2%nat); [now left | simpl; lia | simpl; lia |].
    simpl. lra.
Defined.

(** Three 32-bit samples, normalised and clipped: mid-scale for 0, and 0
    for both the largest sample (which wraps) and the smallest. *)
Example normalize_int32_extremes :
  clip (Generate.normalize 4095 Generate.int32 [0; 2147483647; -2147483648]) 0 4095
  = [2047; 0; 0]%Z.
Proof.
  assert (H : Generate.normalize 4095 Generate.int32 [0; 2147483647; -2147483648]
              = [2047; -4396972769280; -4396972767232]%Z).
  { unfold Generate.normalize, Generate.add_one_int32. cbn [map].
    apply cons_eq; [| apply cons_eq; [| apply cons_eq; [| reflexivity]]].
    - destruct (Rle_dec 2147483648 (0 + 1)) as [H | _]; [lra |].
      apply astype_int_between; lra.
    - destruct (Rle_dec 2147483648 (2147483647 + 1)) as [_ | H]; [| lra].
      replace ((2147483647 + 1 - 4294967296) / 2 * 4095)
        with (IZR (-4396972769280)) by lra.
      apply astype_int_IZR.
    - destruct (Rle_dec 2147483648 (-2147483648 + 1)) as [H | _]; [lra |].
      unfold astype_int.
      destruct (Rle_dec 0 ((-2147483648 + 1) / 2 * 4095)) as [H | _]; [lra |].
      rewrite (Int_part_between _ 4396972767232) by lra. reflexivity. }
  rewrite H. reflexivity.
Qed.

End GenerateBatch.

(** ** What the resampling step of [generate.py] keeps *)

Section GenerateResample.
Import Numpy.

Lemma nth_linspace_closed_first (s d : R) (n : nat) :
  (1 <= n)%nat -> nth 0 (linspace 0 s n true) d = 0.
Proof.
  intros Hn. unfold linspace.
  destruct n as [| [| n]]; [lia | |].
  - simpl. ring.
  - assert (H1 : (1 <? S (S n))%nat = true) by (apply Nat.ltb_lt; lia).
    rewrite H1. cbn [andb seq map removelast app nth].
    change (0 <? S (S n) - 1)%nat with true. cbv iota.
    change (INR 0) with 0. ring.
Qed.

Lemma nth_linspace_closed_last (a b d : R) (n : nat) :
  (2 <= n)%nat -> nth (n - 1) (linspace a b n true) d = b.
Proof.
  intros Hn. unfold linspace.
  assert (H1 : (1 <? n)%nat = true) by (apply Nat.ltb_lt; lia).
  rewrite H1. cbn [andb].
  rewrite app_nth2
    by (rewrite removelast_firstn_len, length_firstn, length_map, length_seq; lia).
  rewrite removelast_firstn_len, length_firstn, length_map, length_seq.
  replace (n - 1 - Nat.min (Nat.pred n) n)%nat with 0%nat by lia.
  reflexivity.
Qed.

Lemma take_in_bounds_eq (a indices : list Z) :
  Forall (fun i => (0 <= i < Z.of_nat (length a))%Z) indices ->
  Generate.take a indices = Ok (map (fun i => nth (Z.to_nat i) a 0%Z) indices).
Proof.
  induction 1 as [| i rest Hi _ IH]; [reflexivity |].
  cbn [Generate.take map]. rewrite IH.
  assert (Hb : ((0 <=? i) && (i <? Z.of_nat (length a)))%Z = true).
  { apply andb_true_iff. split; [apply Z.leb_le | apply Z.ltb_lt]; lia. }
  now rewrite Hb.
Qed.

Lemma linspace_int_in_bounds (L n : nat) :
  (1 <= L)%nat ->
  Forall (fun i => (0 <= i < Z.of_nat L)%Z)
         (linspace_int 0 (IZR (Z.of_nat L - 1)) n).
Proof.
  intros HL. unfold linspace_int. apply Forall_forall. intros i Hi.
  apply in_map_iff in Hi as [v [Hi Hv]]. subst i.
  apply linspace_closed_range in Hv; [| apply IZR_le; lia].
  apply astype_int_range in Hv. lia.
Qed.

(** Interpolation between integer positions stays between the sample
    values. *)
Lemma interp_from_bounds (lo hi : R) (ys : list R) :
  Forall (fun y => lo <= y <= hi) ys ->
  forall (k : nat) (y0 x : R),
    lo <= y0 <= hi -> INR k <= x ->
    lo <= interp_from x (INR k) y0 (map INR (seq (S k) (length ys))) ys <= hi.
Proof.
  induction 1 as [| y1 ys Hy1 _ IH]; intros k y0 x Hy0 Hx.
  - simpl. exact Hy0.
  - cbn [length seq map interp_from].
    destruct (Rlt_dec x (INR (S k))) as [Hlt | Hge].
    + destruct (Req_dec_T x (INR k)); [exact Hy0 |].
      rewrite S_INR in *.
      replace ((y1 - y0) / (INR k + 1 - INR k) * (x - INR k) + y0)
        with ((y1 - y0) * (x - INR k) + y0) by (field; lra).
      split; nra.
    + apply IH; [exact Hy1 | lra].
Qed.

Lemma Generate_resample_up_eq (normalized : list Z) (n_samples : nat) (z0 : Z) (zs : list Z) :
  normalized = z0 :: zs ->
  (length normalized <= n_samples)%nat ->
  Generate.resample normalized n_samples
  = Ok (map (fun q =>
               astype_int
                 (if Rlt_dec q (INR 0) then IZR z0
                  else interp_from q (INR 0) (IZR z0)
                         (map INR (seq 1 (length zs))) (map IZR zs)))
            (linspace 0 (IZR (Z.of_nat (length normalized) - 1)) n_samples true)).
Proof.
  intros -> HL. unfold Generate.resample.
  assert (Hd : (n_samples <? length (z0 :: zs))%nat = false) by (apply Nat.ltb_ge; lia).
  rewrite Hd. unfold arange. cbn [length seq map].
  rewrite interp_cons. now rewrite map_map.
Qed.

(** X19.  Resampling in [generate.py] keeps the ends of the table: for a
    non-empty table and [n_samples >= 1] the first output is the first
    sample, and for [n_samples >= 2] the last output is the last sample,
    whether the table is shortened or lengthened. *)
Theorem Generate_resample_keeps_ends (normalized : list Z) (n_samples : nat) :
  (1 <= length normalized)%nat -> (1 <= n_samples)%nat ->
  exists r,
    Generate.resample normalized n_samples = Ok r
    /\ nth 0 r 0%Z = nth 0 normalized 0%Z
    /\ ((2 <= n_samples)%nat ->
        nth (n_samples - 1) r 0%Z = nth (length normalized - 1) normalized 0%Z).
Proof.
  intros HL HN.
  assert (Hlast : IZR (Z.of_nat (length normalized) - 1)
                  = INR (length normalized - 1)).
  { rewrite INR_IZR_INZ. f_equal. lia. }
  destruct (Nat.lt_ge_cases n_samples (length normalized)) as [Hdown | Hup].
  - unfold Generate.resample.
    assert (Hd : (n_samples <? length normalized)%nat = true) by now apply Nat.ltb_lt.
    rewrite Hd. rewrite take_in_bounds_eq by now apply linspace_int_in_bounds.
    eexists. split; [reflexivity |].
    unfold linspace_int. rewrite map_map. split.
    + rewrite (nth_map_lt _ _ _ _ 0) by (rewrite length_linspace; lia).
      rewrite nth_linspace_closed_first by exact HN.
      now rewrite (astype_int_IZR 0).
    + intros H2.
      rewrite (nth_map_lt _ _ _ _ 0) by (rewrite length_linspace; lia).
      rewrite nth_linspace_closed_last by exact H2.
      rewrite astype_int_IZR. f_equal. lia.
  - destruct normalized as [| z0 zs] eqn:Hnorm; [simpl in HL; lia |].
    rewrite <- Hnorm in *.
    rewrite (Generate_resample_up_eq normalized n_samples z0 zs Hnorm Hup).
    eexists. split; [reflexivity |]. split.
    + rewrite (nth_map_lt _ _ _ _ 0) by (rewrite length_linspace; lia).
      rewrite nth_linspace_closed_first by exact HN.
      destruct (Rlt_dec 0 (INR 0)) as [Hlt | _]; [simpl in Hlt; lra |].
      change 0 with (INR (0 + 0)) at 1.
      rewrite <- (length_map IZR zs).
      rewrite interp_from_at_knot by lia.
      cbn [nth]. rewrite astype_int_IZR. now rewrite Hnorm.
    + intros H2.
      rewrite (nth_map_lt _ _ _ _ 0) by (rewrite length_linspace; lia).
      rewrite nth_linspace_closed_last by exact H2.
      rewrite Hlast.
      destruct (Rlt_dec (INR (length normalized - 1)) (INR 0)) as [Hlt | _].
      { apply INR_lt in Hlt. lia. }
      assert (Hk : (length normalized - 1 = 0 + length (map IZR zs))%nat)
        by (rewrite Hnorm, length_map; simpl; lia).
      rewrite Hk at 1.
      rewrite <- (length_map IZR zs) at 1.
      rewrite interp_from_at_knot by lia.
      rewrite length_map.
      change (IZR z0 :: map IZR zs) with (map IZR (z0 :: zs)).
      rewrite (nth_map_lt _ _ _ _ 0%Z) by (simpl; lia).
      rewrite astype_int_IZR. rewrite Hnorm. f_equal. simpl. lia.
Qed.

Lemma Generate_resample_keeps_ends_witness :
  exists r,
    Generate.resample [4; 8; 6]%Z 5 = Ok r
    /\ nth 0 r 0%Z = 4%Z
    /\ ((2 <= 5)%nat -> nth (5 - 1) r 0%Z = 6%Z).
Proof.
  apply (Generate_resample_keeps_ends [4; 8; 6]%Z 5); simpl; lia.
Defined.

(** X20.  Resampling in [generate.py] never leaves the range of the
    table: if every sample lies between [lo] and [hi], so does every
    output; when the table is shortened every output is one of the
    samples. *)
Theorem Generate_resample_stays_in_range
    (normalized r : list Z) (n_samples : nat) (lo hi : Z) :
  Forall (fun v => (lo <= v <= hi)%Z) normalized ->
  Generate.resample normalized n_samples = Ok r ->
  Forall (fun v => (lo <= v <= hi)%Z) r
  /\ ((n_samples < length normalized)%nat -> Forall (fun v => In v normalized) r).
Proof.
  intros Hall Hr.
  destruct (Nat.lt_ge_cases n_samples (length normalized)) as [Hdown | Hup].
  - assert (Hin : Forall (fun v => In v normalized) r).
    { unfold Generate.resample in Hr.
      assert (Hd : (n_samples <? length normalized)%nat = true) by now apply Nat.ltb_lt.
      rewrite Hd in Hr. now apply take_ok in Hr. }
    split; [| intros _; exact Hin].
    rewrite Forall_forall in *. intros v Hv. apply Hall. now apply Hin.
  - split; [| lia].
    destruct normalized as [| z0 zs] eqn:Hnorm.
    { unfold Generate.resample in Hr. simpl in Hr. discriminate. }
    rewrite <- Hnorm in *.
    rewrite (Generate_resample_up_eq normalized n_samples z0 zs Hnorm Hup) in Hr.
    injection Hr as <-.
    assert (H0 : (lo <= z0 <= hi)%Z).
    { rewrite Hnorm in Hall. now inversion Hall. }
    assert (Hzs : Forall (fun y => IZR lo <= y <= IZR hi) (map IZR zs)).
    { rewrite Hnorm in Hall. inversion Hall as [| ? ? _ Hrest]. subst.
      apply Forall_forall. intros y Hy. apply in_map_iff in Hy as [z [<- Hz]].
      rewrite Forall_forall in Hrest. specialize (Hrest z Hz).
      split; apply IZR_le; lia. }
    assert (Hy0 : IZR lo <= IZR z0 <= IZR hi) by (split; apply IZR_le; lia).
    apply Forall_forall. intros v Hv.
    apply in_map_iff in Hv as [q [<- Hq]].
    apply linspace_closed_range in Hq;
      [| apply IZR_le; rewrite Hnorm; simpl length; lia].
    assert (Hb : IZR lo
                 <= (if Rlt_dec q (INR 0) then IZR z0
                     else interp_from q (INR 0) (IZR z0)
                            (map INR (seq 1 (length zs))) (map IZR zs))
                 <= IZR hi).
    { destruct (Rlt_dec q (INR 0)); [exact Hy0 |].
      rewrite <- (length_map IZR zs).
      apply interp_from_bounds; [exact Hzs | exact Hy0 | simpl; lra]. }
    destruct Hb as [Hb1 Hb2].
    apply astype_int_mono in Hb1, Hb2. rewrite astype_int_IZR in Hb1, Hb2.
    split; [exact Hb1 | exact Hb2].
Qed.

Lemma Generate_resample_stays_in_range_witness :
  exists r, Generate.resample [4; 8; 6]%Z 5 = Ok r
            /\ Forall (fun v => (4 <= v <= 8)%Z) r.
Proof.
  destruct (Generate_resample_length [4; 8; 6]%Z 5 ltac:(simpl; lia)) as [r [Hr _]].
  exists r. split; [exact Hr |].
  apply (Generate_resample_stays_in_range [4; 8; 6]%Z r 5 4 8); [| exact Hr].
  repeat constructor; lia.
Defined.

End GenerateResample.

(** * Further properties of the generators *)

Section GeneratorShapes.
Import Numpy Generate.

Lemma nth_generate_sine_lut (res : Z) (n i : nat) :
  (i < n)%nat ->
  nth i (generate_sine_lut res n) 0%Z
  = astype_int ((sin (INR i * (2 * PI / INR n)) + 1) / 2 * IZR res).
Proof.
  intros Hi. unfold generate_sine_lut.
  rewrite (nth_map_lt _ _ _ _ 0) by (now rewrite length_map, length_linspace).
  rewrite (nth_map_lt _ _ _ _ 0) by (now rewrite length_linspace).
  rewrite nth_linspace_open by exact Hi.
  replace (INR i * ((2 * PI - 0) / INR n) + 0) with (INR i * (2 * PI / INR n))
    by (unfold Rdiv; ring).
  reflexivity.
Qed.

(** Truncating a value and its complement to [r] loses at most one. *)
Lemma astype_int_complement (x : R) (r : Z) :
  0 <= x <= IZR r ->
  (astype_int x + astype_int (IZR r - x) = r
   \/ astype_int x + astype_int (IZR r - x) = r - 1)%Z.
Proof.
  intros [H0 H1].
  rewrite !astype_int_nonneg by lra.
  destruct (base_Int_part x) as [Ha1 Ha2].
  destruct (base_Int_part (IZR r - x)) as [Hb1 Hb2].
  assert (Hle : (Int_part x + Int_part (IZR r - x) <= r)%Z).
  { apply le_IZR. rewrite plus_IZR. lra. }
  assert (Hgt : (r - 2 < Int_part x + Int_part (IZR r - x))%Z).
  { apply lt_IZR. rewrite plus_IZR, minus_IZR. lra. }
  lia.
Qed.

(** X21.  The sine table is antisymmetric about mid-scale up to
    truncation: for an even number of samples, a sample and the one half
    a period later add up to [R] or to [R - 1]. *)
Theorem sine_half_period_complement (res : Z) (n i : nat) :
  (0 <= res)%Z -> Nat.even n = true -> (i < n / 2)%nat ->
  let lut := generate_sine_lut res n in
  (nth i lut 0 + nth (i + n / 2) lut 0 = res
   \/ nth i lut 0 + nth (i + n / 2) lut 0 = res - 1)%Z.
Proof.
  intros Hres Hev Hi lut. unfold lut.
  assert (Hn : n = (2 * (n / 2))%nat).
  { apply Nat.even_spec in Hev. destruct Hev as [k Hk].
    rewrite Hk. rewrite (Nat.mul_comm 2 k), Nat.div_mul by lia. lia. }
  set (h := (n / 2)%nat) in *.
  rewrite !nth_generate_sine_lut by lia.
  assert (Hh : INR h <> 0) by (apply not_0_INR; lia).
  assert (Hangle : INR (i + h) * (2 * PI / INR n) = INR i * (2 * PI / INR n) + PI).
  { rewrite Hn. rewrite plus_INR, mult_INR. simpl INR. field. exact Hh. }
  rewrite Hangle, neg_sin.
  set (s := sin (INR i * (2 * PI / INR n))).
  pose proof (SIN_bound (INR i * (2 * PI / INR n))) as [Hlo Hhi]. fold s in Hlo, Hhi.
  replace ((- s + 1) / 2 * IZR res) with (IZR res - (s + 1) / 2 * IZR res) by field.
  apply astype_int_complement.
  apply IZR_le in Hres. split; nra.
Qed.

Lemma sine_half_period_complement_witness :
  (nth 1 (generate_sine_lut 4095 8) 0 + nth (1 + 8 / 2) (generate_sine_lut 4095 8) 0
   = 4095
   \/ nth 1 (generate_sine_lut 4095 8) 0 + nth (1 + 8 / 2) (generate_sine_lut 4095 8) 0
      = 4095 - 1)%Z.
Proof.
  apply (sine_half_period_complement 4095 8 1); [lia | reflexivity | simpl; lia].
Defined.

(** X22.  The sine table starts at mid-scale: its first value is
    [R // 2]. *)
Theorem sine_starts_at_mid_scale (res : Z) (n : nat) :
  (0 <= res)%Z -> (1 <= n)%nat ->
  nth 0 (generate_sine_lut res n) 0%Z = (res / 2)%Z.
Proof.
  intros Hres Hn. rewrite nth_generate_sine_lut by lia.
  change (INR 0) with 0. rewrite Rmult_0_l, sin_0.
  pose proof (Z.div_mod res 2 ltac:(lia)) as Hdm.
  pose proof (Z.mod_pos_bound res 2 ltac:(lia)) as Hmod.
  assert (Hq : (0 <= res / 2)%Z) by (apply Z.div_pos; lia).
  apply astype_int_between.
  - apply IZR_le in Hres. lra.
  - assert (Hr : IZR res = 2 * IZR (res / 2) + IZR (res mod 2)).
    { rewrite <- mult_IZR, <- plus_IZR. f_equal. exact Hdm. }
    assert (0 <= IZR (res mod 2) <= 1).
    { split; apply IZR_le; lia. }
    lra.
Qed.

Lemma sine_starts_at_mid_scale_witness :
  nth 0 (generate_sine_lut 4095 3333) 0%Z = (4095 / 2)%Z.
Proof.
  apply (sine_starts_at_mid_scale 4095 3333); lia.
Defined.

(** X23.  The sawtooth never reaches full scale: for [R > 0] every value
    of the table is below [R]. *)
Theorem sawtooth_below_full_scale (res : Z) (n : nat) :
  (0 < res)%Z ->
  Forall (fun v => (0 <= v < res)%Z) (generate_sawtooth_lut res n).
Proof.
  intros Hres. unfold generate_sawtooth_lut.
  apply Forall_forall. intros v Hv.
  apply in_map_iff in Hv as [y [<- Hy]].
  apply In_linspace_open in Hy as [i [Hi Hy]].
  pose proof (fraction_bounds i n Hi) as Hf.
  assert (HR : 0 < IZR res) by now apply IZR_lt.
  assert (Hy' : y = INR i / INR n * IZR res).
  { rewrite Hy. assert (INR n <> 0) by (apply not_0_INR; lia). field. assumption. }
  assert (Hb : 0 <= y < IZR res) by (rewrite Hy'; split; nra).
  split.
  - rewrite astype_int_nonneg by lra. apply Int_part_nonneg. lra.
  - rewrite astype_int_nonneg by lra.
    destruct (base_Int_part y) as [H1 _]. apply lt_IZR. lra.
Qed.

Lemma sawtooth_below_full_scale_witness :
  Forall (fun v => (0 <= v < 4095)%Z) (generate_sawtooth_lut 4095 3333).
Proof.
  apply (sawtooth_below_full_scale 4095 3333). lia.
Defined.

End GeneratorShapes.

(** ** Timer constants *)

Section Timer.
Import Generate.

(** X24.  The reload value [TIM2CLK / (NS * F_SIGNAL)] against the bound
    [TIM2CLK / (2 * NS)]: every frequency from 1 up to the bound gives at
    least two ticks, and every frequency above [TIM2CLK / NS] gives zero
    ticks; for the script's 3333 samples the bound is 2400, 440 Hz gives
    10 ticks and 44100 Hz gives 0. *)
Theorem timer_ticks_against_bound (NS F_SIGNAL : Z) :
  (1 <= NS)%Z ->
  ((1 <= F_SIGNAL <= F_max NS)%Z -> (2 <= TIM2_TICKS NS F_SIGNAL)%Z)
  /\ ((TIM2CLK / NS < F_SIGNAL)%Z -> TIM2_TICKS NS F_SIGNAL = 0%Z)
  /\ F_max (Z.of_nat SAMPLES_PER_WAVEFORM) = 2400%Z
  /\ TIM2_TICKS (Z.of_nat SAMPLES_PER_WAVEFORM) 440 = 10%Z
  /\ TIM2_TICKS (Z.of_nat SAMPLES_PER_WAVEFORM) 44100 = 0%Z.
Proof.
  intros HNS. unfold TIM2_TICKS, F_max, TIM2CLK.
  split; [| split; [| repeat split; vm_compute; reflexivity]].
  - intros [H1 H2].
    apply Z.div_le_lower_bound; [nia |].
    pose proof (Z.mul_div_le 16000000 (2 * NS) ltac:(lia)) as Hm.
    nia.
  - intros Hgt. apply Z.div_small. split; [lia |].
    pose proof (Z.mul_succ_div_gt 16000000 NS ltac:(lia)) as Hm.
    nia.
Qed.

Lemma timer_ticks_against_bound_witness :
  ((1 <= 1000 <= F_max 3333)%Z -> (2 <= TIM2_TICKS 3333 1000)%Z)
  /\ ((TIM2CLK / 3333 < 1000)%Z -> TIM2_TICKS 3333 1000 = 0%Z).
Proof.
  pose proof (timer_ticks_against_bound 3333 1000 ltac:(lia)) as (H1 & H2 & _).
  split; assumption.
Defined.

End Timer.

(** ** The C text of a table *)

Section Formatting.
Import Generate.

Lemma concat_chunks {A : Type} (k : nat) :
  (1 <= k)%nat ->
  forall (m : nat) (arr : list A),
    (length arr <= m * k)%nat ->
    concat (map (fun j => firstn k (skipn (j * k) arr)) (seq 0 m)) = arr.
Proof.
  intros Hk. induction m as [| m IH]; intros arr Hlen.
  - simpl in Hlen. destruct arr; [reflexivity | simpl in Hlen; lia].
  - cbn [seq map concat]. rewrite <- seq_shift, map_map.
    rewrite (map_ext (fun j => firstn k (skipn (S j * k) arr))
                     (fun j => firstn k (skipn (j * k) (skipn k arr))))
      by (intros j; rewrite skipn_skipn; f_equal; f_equal; lia).
    rewrite IH by (rewrite length_skipn; simpl in Hlen; lia).
    cbn [Nat.mul skipn]. apply firstn_skipn.
Qed.

Lemma ceil_div_bounds (L k : nat) :
  (1 <= k)%nat ->
  (L <= (L + (k - 1)) / k * k)%nat /\ ((L + (k - 1)) / k * k < L + k)%nat.
Proof.
  intros Hk.
  pose proof (Nat.div_mod_eq (L + (k - 1)) k) as Hdm.
  pose proof (Nat.mod_upper_bound (L + (k - 1)) k ltac:(lia)) as Hmod.
  split; nia.
Qed.

(** X25.  The C text of a table, for [samples_per_line >= 1]: a header, one
    line per group of [samples_per_line] consecutive values and the closing
    line.  The groups cover the table once, in order, each with between 1
    and [samples_per_line] values, and a line ends in a comma exactly when
    another line of values follows. *)
Theorem format_c_array_layout (arr : list Z) (name : string) (samples_per_line : nat) :
  (1 <= samples_per_line)%nat ->
  let m := ((length arr + (samples_per_line - 1)) / samples_per_line)%nat in
  let chunk := fun j => firstn samples_per_line (skipn (j * samples_per_line) arr) in
  let lines := format_c_array_lines arr name samples_per_line in
  length lines = (m + 2)%nat
  /\ nth (m + 1) lines EmptyString = "};"%string
  /\ concat (map chunk (seq 0 m)) = arr
  /\ forall j, (j < m)%nat ->
       (1 <= length (chunk j) <= samples_per_line)%nat
       /\ nth (S j) lines EmptyString
          = let line :=
              ("    " ++ Python.join ", " (map Python.format_4d (chunk j)))%string in
            if (S j <? m)%nat then (line ++ ",")%string else line.
Proof.
  intros Hk m chunk lines.
  destruct (ceil_div_bounds (length arr) samples_per_line Hk) as [Hlo Hhi].
  fold m in Hlo, Hhi.
  assert (Hbody : length (Python.range_step (length arr) samples_per_line) = m).
  { unfold Python.range_step. now rewrite length_map, length_seq. }
  unfold lines, format_c_array_lines. cbv zeta.
  split; [rewrite !length_app, length_map, Hbody; simpl; lia |].
  split.
  { rewrite app_nth2 by (simpl; lia).
    rewrite app_nth2 by (rewrite length_map, Hbody; simpl; lia).
    rewrite length_map, Hbody. cbn [length].
    replace (m + 1 - 1 - m)%nat with 0%nat by lia.
    reflexivity. }
  split; [unfold chunk; now apply concat_chunks |].
  intros j Hj. split.
  - unfold chunk. rewrite length_firstn, length_skipn. nia.
  - cbn [app nth].
    rewrite app_nth1 by (rewrite length_map, Hbody; exact Hj).
    rewrite (nth_map_lt _ _ _ _ 0%nat) by (rewrite Hbody; exact Hj).
    unfold Python.range_step.
    rewrite (nth_map_lt _ _ _ _ 0%nat) by (rewrite length_seq; exact Hj).
    rewrite seq_nth by exact Hj. cbn [Nat.add].
    assert (Hc : (j * samples_per_line + samples_per_line <? length arr)%nat
                 = (S j <? m)%nat).
    { destruct (S j <? m)%nat eqn:Hs.
      - apply Nat.ltb_lt in Hs. apply Nat.ltb_lt. nia.
      - apply Nat.ltb_ge in Hs. apply Nat.ltb_ge. nia. }
    rewrite Hc. reflexivity.
Qed.

Lemma format_c_array_layout_witness :
  length (format_c_array_lines [1; 2; 3; 4; 5]%Z "sine_lut" 2) = 5%nat
  /\ nth 3 (format_c_array_lines [1; 2; 3; 4; 5]%Z "sine_lut" 2) EmptyString
     = "       5"%string.
Proof.
  pose proof (format_c_array_layout [1; 2; 3; 4; 5]%Z "sine_lut" 2 ltac:(lia)) as H.
  cbv zeta in H. destruct H as (Hlen & _ & _ & Hline).
  split; [exact Hlen |].
  destruct (Hline 2%nat ltac:(simpl; lia)) as [_ H2]. exact H2.
Defined.

Example format_c_array_five :
  format_c_array [0; 2047; 4095; 7; 12]%Z "saw" 3
  = Python.join Python.newline
      ["const uint16_t saw[5] = {";
       "       0, 2047, 4095,";
       "       7,   12";
       "};"]%string.
Proof. reflexivity. Qed.

End Formatting.

